(** * Blueberry: the intent-to-spec-to-code pipeline of [blueberry/agents.py]

    A shallow embedding of [MasterAgent] and [CodeAgent].  The language
    model, the code-editing agent and the operator console are external:
    they are oracles (functions of the calls made so far, or a script of
    typed lines), and every method is a function of the state it threads.

    Strings are sequences of ASCII characters; Python [int] is [Z]. *)

From Stdlib Require Import ZArith Lia List Ascii String Bool.
From Stdlib Require Import DecimalString DecimalNat.
From stdpp Require Import base option list strings gmap.

Open Scope string_scope.
Open Scope Z_scope.

(** ** Python strings *)

Module PyStr.

(** [str.lower] on an ASCII character: 'A'..'Z' move to 'a'..'z'. *)
Definition lower_ascii (c : ascii) : ascii :=
  let n := nat_of_ascii c in
  if ((65 <=? n) && (n <=? 90))%nat then ascii_of_nat (n + 32) else c.

Fixpoint lower (s : string) : string :=
  match s with
  | EmptyString => EmptyString
  | String c r => String (lower_ascii c) (lower r)
  end.

(** [s.replace(old, new)] for a one-character [old]. *)
Fixpoint replace (old : ascii) (new : string) (s : string) : string :=
  match s with
  | EmptyString => EmptyString
  | String c r =>
      if Ascii.eqb c old then new ++ replace old new r
      else String c (replace old new r)
  end.

Fixpoint startswith (p s : string) : bool :=
  match p, s with
  | EmptyString, _ => true
  | String a p', String b s' => Ascii.eqb a b && startswith p' s'
  | String _ _, EmptyString => false
  end.

Fixpoint endswith_char (c : ascii) (s : string) : bool :=
  match s with
  | EmptyString => false
  | String d EmptyString => Ascii.eqb d c
  | String _ r => endswith_char c r
  end.

(** [str(n)] and [int(s)] on decimal numerals without sign. *)
Definition of_nat (n : nat) : string :=
  NilZero.string_of_uint (Nat.to_uint n).

Definition to_int (s : string) : option Z :=
  match s with
  | EmptyString => None
  | _ => match NilEmpty.uint_of_string s with
         | Some d => Some (Z.of_nat (Nat.of_uint d))
         | None => None
         end
  end.

End PyStr.

(** ** [os.path] (POSIX) *)

Module OsPath.

(** [os.path.join(a, b)]: an absolute [b] discards [a]. *)
Definition join (a b : string) : string :=
  if PyStr.startswith "/" b then b
  else if (String.eqb a "" || PyStr.endswith_char "/" a)%bool then a ++ b
  else a ++ "/" ++ b.

End OsPath.

(** ** Python values, exceptions and results *)

(** The values a dictionary-shaped agent response can hold.  A [dict] keeps
    its items in insertion order. *)
#[warnings="-register-all"]
Inductive pyval : Type :=
| PNone
| PBool (b : bool)
| PInt (z : Z)
| PStr (s : string)
| PList (l : list pyval)
| PDict (d : list (string * pyval)).

(** Truth value testing, as [if v:] does it. *)
Definition truthy (v : pyval) : bool :=
  match v with
  | PNone => false
  | PBool b => b
  | PInt z => negb (z =? 0)
  | PStr s => negb (String.eqb s "")
  | PList l => match l with [] => false | _ => true end
  | PDict d => match d with [] => false | _ => true end
  end.

(** An instance of [Exception]: its class and [str(e)]. *)
Record exn : Type := Exn { exn_class : string; exn_str : string }.

Definition ValueError (msg : string) : exn := Exn "ValueError" msg.
Definition AttributeError (msg : string) : exn := Exn "AttributeError" msg.
Definition TypeError (msg : string) : exn := Exn "TypeError" msg.
Definition IndexError (msg : string) : exn := Exn "IndexError" msg.
Definition EOFError : exn := Exn "EOFError" "EOF when reading a line".
Definition FileExistsError (p : string) : exn := Exn "FileExistsError" p.
Definition FileNotFoundError (p : string) : exn := Exn "FileNotFoundError" p.
Definition IsADirectoryError (p : string) : exn := Exn "IsADirectoryError" p.
Definition NotADirectoryError (p : string) : exn := Exn "NotADirectoryError" p.

Inductive outcome (A : Type) : Type :=
| Ok (a : A)
| Raise (e : exn).
Arguments Ok {A} a.
Arguments Raise {A} e.

(** State threaded through a method, with exceptions: the state survives a
    raise, as effects performed before it do. *)
Definition M (S A : Type) : Type := S -> outcome A * S.

Definition ret {S A} (a : A) : M S A := fun s => (Ok a, s).
Definition raise {S A} (e : exn) : M S A := fun s => (Raise e, s).
Definition bind {S A B} (m : M S A) (k : A -> M S B) : M S B :=
  fun s => match m s with
           | (Ok a, s') => k a s'
           | (Raise e, s') => (Raise e, s')
           end.
(** [try: m  except Exception as e: h e] *)
Definition try_except {S A} (m : M S A) (h : exn -> M S A) : M S A :=
  fun s => match m s with
           | (Ok a, s') => (Ok a, s')
           | (Raise e, s') => h e s'
           end.
Definition modify {S} (f : S -> S) : M S unit := fun s => (Ok tt, f s).
Definition gets {S A} (f : S -> A) : M S A := fun s => (Ok (f s), s).

Declare Scope py_scope.
Delimit Scope py_scope with py.
Notation "x <- m ;; k" := (bind m (fun x => k))
  (at level 100, m at next level, right associativity) : py_scope.
Notation "m ;; k" := (bind m (fun _ => k))
  (at level 100, right associativity) : py_scope.
Open Scope py_scope.

(** [for x in xs: body x] *)
Fixpoint for_each {S A} (xs : list A) (body : A -> M S unit) : M S unit :=
  match xs with
  | [] => ret tt
  | x :: r => body x ;; for_each r body
  end.

(** [d.get(k)] and [d[k]] on a response; anything but a [dict] has neither. *)
Fixpoint assoc (k : string) (d : list (string * pyval)) : option pyval :=
  match d with
  | [] => None
  | (k', v) :: r => if String.eqb k k' then Some v else assoc k r
  end.

Definition py_get {S} (v : pyval) (k : string) : M S pyval :=
  match v with
  | PDict d => ret (default PNone (assoc k d))
  | _ => raise (AttributeError "object has no attribute 'get'")
  end.

Definition py_getitem {S} (v : pyval) (k : string) : M S pyval :=
  match v with
  | PDict d => match assoc k d with
               | Some x => ret x
               | None => raise (Exn "KeyError" k)
               end
  | _ => raise (TypeError "indices must be integers")
  end.

(** The items [for x in v] visits; a [str] yields its characters, a [dict]
    its keys, and the scalars are not iterable. *)
Definition py_iter {S} (v : pyval) : M S (list pyval) :=
  match v with
  | PList l => ret l
  | PDict d => ret (map (fun kv => PStr (fst kv)) d)
  | PStr s => ret (map (fun c => PStr (String c EmptyString)) (list_ascii_of_string s))
  | _ => raise (TypeError "object is not iterable")
  end.

(** ** The data model of [models.py] *)

Module Intent.
Record t : Type := Build { features : list string }.
Definition model_dump (i : t) : pyval :=
  PDict [("features", PList (map PStr (features i)))].
End Intent.

Module SupabaseTable.
Record t : Type := Build { name : string; sql_schema : string }.
Definition model_dump (x : t) : pyval :=
  PDict [("name", PStr (name x)); ("sql_schema", PStr (sql_schema x))].
End SupabaseTable.

Module APIRoute.
Record t : Type :=
  Build { path : string; method : string; description : string; query : string }.
Definition model_dump (x : t) : pyval :=
  PDict [("path", PStr (path x)); ("method", PStr (method x));
         ("description", PStr (description x)); ("query", PStr (query x))].
End APIRoute.

Module Page.
Record t : Type :=
  Build { path : string; description : string;
          api_routes : list string; components : list string }.
Definition model_dump (x : t) : pyval :=
  PDict [("path", PStr (path x)); ("description", PStr (description x));
         ("api_routes", PList (map PStr (api_routes x)));
         ("components", PList (map PStr (components x)))].
End Page.

Module Component.
Record t : Type := Build { name : string; description : string; is_client : bool }.
Definition model_dump (x : t) : pyval :=
  PDict [("name", PStr (name x)); ("description", PStr (description x));
         ("is_client", PBool (is_client x))].
End Component.

Module ProjectStructure.
Record t : Type :=
  Build { pages : list Page.t; components : list Component.t;
          api_routes : list APIRoute.t; database : list SupabaseTable.t }.
Definition model_dump (x : t) : pyval :=
  PDict [("pages", PList (map Page.model_dump (pages x)));
         ("components", PList (map Component.model_dump (components x)));
         ("api_routes", PList (map APIRoute.model_dump (api_routes x)));
         ("database", PList (map SupabaseTable.model_dump (database x)))].
End ProjectStructure.

Module ProjectSpec.
Record t : Type :=
  Build { name : string; description : string;
          features : list string; structure : ProjectStructure.t }.
Definition model_dump (x : t) : pyval :=
  PDict [("name", PStr (name x)); ("description", PStr (description x));
         ("features", PList (map PStr (features x)));
         ("structure", ProjectStructure.model_dump (structure x))].
End ProjectSpec.

(** ** The world of [MasterAgent] *)

Inductive console_event : Type :=
| Print (s : string)          (* console.print(s) *)
| PrintObj (v : pyval)        (* console.print(v) of a response *)
| StatusStart (s : string)    (* console.status(s).start() *)
| StatusStop.                 (* status.stop() *)

(** A request to the language model: the stage and the payload that the
    fixed prompt of the stage is filled with. *)
Inductive ai_request : Type :=
| ParseIntent (user_input : string)   (* client.beta.chat.completions.parse, gpt-4o *)
| EnhanceFeature (feature : string)   (* lumos.call_ai, gpt-4o-mini, Intent *)
| GenerateSpec (intent : pyval).      (* lumos.call_ai, gpt-4o, ProjectSpec *)

(** The model provider: what each call answers, given the calls made before
    it.  [chat_parse] answers the [parsed] field of each choice. *)
Record model : Type := Model {
  chat_parse : list ai_request -> string -> outcome (list (option Intent.t));
  call_ai_intent : list ai_request -> string -> outcome Intent.t;
  call_ai_spec : list ai_request -> Intent.t -> outcome ProjectSpec.t
}.

(** The operator types [stdin], line by line; [console] is what was shown,
    oldest first; [files] maps a path, as written, to the JSON documents
    dumped into the file. *)
Record world : Type := World {
  stdin : list string;
  console : list console_event;
  ai_log : list ai_request;
  dirs : gset string;
  files : gmap string (list pyval)
}.

Definition set_stdin (l : list string) (w : world) : world :=
  World l (console w) (ai_log w) (dirs w) (files w).
Definition emit (e : console_event) (w : world) : world :=
  World (stdin w) (console w ++ [e]) (ai_log w) (dirs w) (files w).
Definition log_request (r : ai_request) (w : world) : world :=
  World (stdin w) (console w) (ai_log w ++ [r]) (dirs w) (files w).
Definition set_dirs (d : gset string) (w : world) : world :=
  World (stdin w) (console w) (ai_log w) d (files w).
Definition set_files (f : gmap string (list pyval)) (w : world) : world :=
  World (stdin w) (console w) (ai_log w) (dirs w) f.

Definition console_print (s : string) : M world unit := modify (emit (Print s)).
Definition status_start (s : string) : M world unit := modify (emit (StatusStart s)).
Definition status_stop : M world unit := modify (emit StatusStop).

(** One call to the model: the request is logged, then answered. *)
Definition ask_model {A} (r : ai_request)
    (answer : list ai_request -> outcome A) : M world A :=
  fun w => (answer (ai_log w), log_request r w).

(** *** The prompt library

    [Prompt.ask] and [Confirm.ask] ask again until the line typed is one of
    the allowed answers; the end of the input raises [EOFError]. *)
Fixpoint read_valid (valid : string -> bool) (lines : list string)
    : option (string * list string) :=
  match lines with
  | [] => None
  | l :: r => if valid l then Some (l, r) else read_valid valid r
  end.

Definition ask_until (valid : string -> bool) : M world string :=
  fun w => match read_valid valid (stdin w) with
           | Some (l, r) => (Ok l, set_stdin r w)
           | None => (Raise EOFError, set_stdin [] w)
           end.

Definition one_of (choices : list string) (l : string) : bool :=
  existsb (String.eqb l) choices.

Definition Prompt_ask (prompt : string) (choices : option (list string))
    : M world string :=
  match choices with
  | Some cs => ask_until (one_of cs)
  | None => ask_until (fun _ => true)
  end.

Definition Confirm_ask (prompt : string) : M world bool :=
  l <- ask_until (one_of ["y"; "n"]) ;; ret (String.eqb l "y").

(** *** Lists and numbers *)

(** [l.pop(i)], returning the list left. *)
Definition py_pop {S A} (l : list A) (i : Z) : M S (list A) :=
  let n := Z.of_nat (length l) in
  let j := if i <? 0 then i + n else i in
  if (n =? 0) then raise (IndexError "pop from empty list")
  else if (j <? 0) || (n <=? j) then raise (IndexError "pop index out of range")
  else ret (delete (Z.to_nat j) l).

Definition py_int {S} (s : string) : M S Z :=
  match PyStr.to_int s with
  | Some z => ret z
  | None => raise (ValueError "invalid literal for int() with base 10")
  end.

(** [enumerate(l, start)] *)
Definition enumerate {A} (l : list A) (start : nat) : list (nat * A) :=
  combine (seq start (length l)) l.

(** *** The file system *)

Fixpoint has_sep (s : string) : bool :=
  match s with
  | EmptyString => false
  | String c r => Ascii.eqb c "/" || has_sep r
  end.

(** [p[: p.rfind('/') + 1]] *)
Fixpoint head_of (p : string) : string :=
  match p with
  | EmptyString => EmptyString
  | String c r => if has_sep p then String c (head_of r) else EmptyString
  end.

Fixpoint all_sep (s : string) : bool :=
  match s with
  | EmptyString => true
  | String c r => Ascii.eqb c "/" && all_sep r
  end.

(** [s.rstrip('/')] *)
Fixpoint rstrip_sep (s : string) : string :=
  match s with
  | EmptyString => EmptyString
  | String c r => if all_sep s then EmptyString else String c (rstrip_sep r)
  end.

(** [os.path.dirname] *)
Definition dirname (p : string) : string :=
  let head := head_of p in
  if all_sep head then head else rstrip_sep head.

Definition is_dir (w : world) (p : string) : bool :=
  String.eqb p "" || all_sep p || bool_decide (p ∈ dirs w).

(** [os.makedirs(p, exist_ok=True)] for a one-component relative [p]. *)
Definition makedirs (p : string) : M world unit :=
  fun w =>
    if is_dir w p then (Ok tt, w)
    else if bool_decide (is_Some (files w !! p)) then (Raise (FileExistsError p), w)
    else (Ok tt, set_dirs ({[ p ]} ∪ dirs w) w).

(** [open(p, "w")]: the file is created or emptied. *)
Definition open_w (p : string) : M world unit :=
  fun w =>
    if is_dir w p then (Raise (IsADirectoryError p), w)
    else if bool_decide (is_Some (files w !! dirname p))
         then (Raise (NotADirectoryError p), w)
    else if negb (is_dir w (dirname p)) then (Raise (FileNotFoundError p), w)
    else (Ok tt, set_files (<[ p := [] ]> (files w)) w).

(** [json.dump(doc, f)] on the file opened at [p]. *)
Definition json_dump (doc : pyval) (p : string) : M world unit :=
  modify (fun w => set_files (<[ p := (default [] (files w !! p) ++ [doc])%list ]> (files w)) w).

(** The expression of [create_spec] that names the file:
    [os.path.join("specs", f"{name.lower().replace(' ', '_')}_spec.json")]. *)
Definition spec_file (name : string) : string :=
  OsPath.join "specs" (PyStr.replace " " "_" (PyStr.lower name) ++ "_spec.json").

(** ** [MasterAgent] *)

Module MasterAgent.
Section Methods.

Variable ai : model.

Definition nl : string := String (ascii_of_nat 10) EmptyString.

Definition understand_intent (user_input : string) : M world (option Intent.t) :=
  try_except
    (choices <- ask_model (ParseIntent user_input)
                  (fun log => chat_parse ai log user_input) ;;
     match choices with
     | parsed :: _ => ret parsed
     | [] => raise (IndexError "list index out of range")
     end)
    (fun e => raise (ValueError ("Failed to understand intent: " ++ exn_str e))).

Definition validate_feature (feature : string) : M world string :=
  intent <- ask_model (EnhanceFeature feature)
              (fun log => call_ai_intent ai log feature) ;;
  ret (match Intent.features intent with
       | first :: _ => first
       | [] => feature
       end).

(** The local variables of [verify_with_user_loop]. *)
Record loop_vars : Type := Vars { features : list string; attempts : Z }.

(** How one run of the loop body ends. *)
Inductive flow : Type :=
| Fallthrough   (* the end of the body is reached *)
| Break
| Continue.

Definition show_features (title : string) (fs : list string) : M world unit :=
  console_print title ;;
  for_each (enumerate fs 1)
    (fun '(i, feature) => console_print (PyStr.of_nat i ++ ". " ++ feature)).

(** The [choice == "1"] branch, up to the [append]. *)
Definition add_feature (fs : list string) : M world (list string) :=
  new_feature <- Prompt_ask "Enter new feature" None ;;
  enhance <- Confirm_ask "Would you like AI to validate and enhance this feature?" ;;
  new_feature <-
    (if enhance then
       status_start "[bold green]Validating feature..." ;;
       try_except
         (enhanced_feature <- validate_feature new_feature ;;
          if negb (String.eqb enhanced_feature new_feature) then
            status_stop ;;
            use <- Confirm_ask ("Would you like to use the enhanced version: "
                                  ++ enhanced_feature ++ "?") ;;
            ret (if use then enhanced_feature else new_feature)
          else
            status_stop ;; ret new_feature)
         (fun e =>
            status_stop ;;
            console_print ("[red]Error validating feature: " ++ exn_str e ++ "[/red]") ;;
            ret new_feature)
     else ret new_feature) ;;
  ret (fs ++ [new_feature])%list.

(** The [choice == "2"] branch on a non-empty list. *)
Definition remove_feature (fs : list string) : M world (list string) :=
  answer <- Prompt_ask "Enter number of feature to remove"
              (Some (map PyStr.of_nat (seq 1 (length fs)))) ;;
  n <- py_int answer ;;
  let remove_idx := n - 1 in
  py_pop fs remove_idx.

(** [attempts += 1] and the listing that closes the body. *)
Definition end_of_body (fs : list string) (v : loop_vars)
    : M world (flow * loop_vars) :=
  let v' := Vars fs (attempts v + 1) in
  show_features (nl ++ "[bold yellow]Updated features:[/bold yellow]") fs ;;
  ret (Fallthrough, v').

Definition loop_body (v : loop_vars) : M world (flow * loop_vars) :=
  show_features (nl ++ "[bold yellow]Current features:[/bold yellow]") (features v) ;;
  modify_them <- Confirm_ask (nl ++ "Would you like to modify these features?") ;;
  if negb modify_them then ret (Break, v)
  else
    console_print (nl ++ "[bold]Options:[/bold]") ;;
    console_print "1. Add a feature" ;;
    console_print "2. Remove a feature" ;;
    console_print "3. Done modifying" ;;
    choice <- Prompt_ask "What would you like to do?" (Some ["1"; "2"; "3"]) ;;
    if String.eqb choice "1" then
      fs <- add_feature (features v) ;;
      end_of_body fs v
    else if String.eqb choice "2" then
      match features v with
      | [] =>
          console_print "[yellow]No features to remove[/yellow]" ;;
          ret (Continue, v)
      | _ =>
          fs <- remove_feature (features v) ;;
          end_of_body fs v
      end
    else ret (Break, v).

(** One run of the body, for the record of a loop: the variables on entry
    and how it ended ([None]: an exception left the loop). *)
Record iteration : Type := Iteration { entry : loop_vars; ended : option flow }.

(** [while attempts < max_attempts: body].  The operator's input is
    finite, so the recursion is on a bound on the lines left; [None] is
    the bound running out. *)
Fixpoint while_loop (max_attempts : Z) (fuel : nat) (v : loop_vars) (w : world)
    : option (list iteration * (outcome loop_vars * world)) :=
  if attempts v <? max_attempts then
    match fuel with
    | O => None
    | S fuel' =>
        match loop_body v w with
        | (Ok (Break, v'), w') => Some ([Iteration v (Some Break)], (Ok v', w'))
        | (Ok (fl, v'), w') =>
            match while_loop max_attempts fuel' v' w' with
            | Some (its, r) => Some (Iteration v (Some fl) :: its, r)
            | None => None
            end
        | (Raise e, w') => Some ([Iteration v None], (Raise e, w'))
        end
    end
  else Some ([], (Ok v, w)).

(** [verify_with_user_loop(intent, max_attempts)] with the record of its
    iterations.  The loop edits [intent.features] in place and the method
    returns the same [intent]; here the list is a loop variable and the
    result carries its last value. *)
Definition verify_with_user_loop (intent : Intent.t) (max_attempts : Z)
    (w : world) : option (list iteration * (outcome Intent.t * world)) :=
  match while_loop max_attempts (S (length (stdin w)))
          (Vars (Intent.features intent) 0) w with
  | Some (its, (Ok v, w')) => Some (its, (Ok (Intent.Build (features v)), w'))
  | Some (its, (Raise e, w')) => Some (its, (Raise e, w'))
  | None => None
  end.

Definition create_spec (intent : Intent.t) : M world ProjectSpec.t :=
  try_except
    (spec <- ask_model (GenerateSpec (Intent.model_dump intent))
               (fun log => call_ai_spec ai log intent) ;;
     makedirs "specs" ;;
     let file := spec_file (ProjectSpec.name spec) in
     open_w file ;;
     json_dump (ProjectSpec.model_dump spec) file ;;
     console_print ("[green]✓ Specification saved to: " ++ file ++ "[/green]") ;;
     ret spec)
    (fun e => raise (ValueError ("Failed to create specification: " ++ exn_str e))).

End Methods.
End MasterAgent.

(** ** [CodeAgent] *)

(** The [session_id] of an invocation, kept as the parts its f-string is
    built from. *)
Inductive session : Type :=
| S_analyze_codebase                            (* "analyze_codebase" *)
| S_generate_implementation_plan                (* "generate_implementation_plan" *)
| S_plan_component (name : string)              (* f"plan_component_{name}" *)
| S_edit_component (name : string)              (* f"edit_component_{name}" *)
| S_plan_route (path : string)                  (* f"plan_route_{path}" *)
| S_edit_route (path : string)                  (* f"edit_route_{path}" *)
| S_plan_table (name : string)                  (* f"plan_table_{name}" *)
| S_edit_table (name : string) (path : pyval)   (* f"edit_table_{name}_{path}" *)
| S_plan_integration                            (* "plan_integration" *)
| S_edit_integration (path : pyval).            (* f"edit_integration_{path}" *)

(** The [input] of an invocation: which instruction, and what it is filled
    with. *)
Inductive instruction : Type :=
| Analyze
| Plan (analysis : pyval) (spec : pyval)
| PlanComponent (implementation_context : pyval) (component : pyval)
| PlanRoute (implementation_context : pyval) (route : pyval)
| PlanTable (implementation_context : pyval) (table : pyval)
| PlanIntegration (implementation_context : pyval)
| EditFile (file_path content : pyval).

Record invocation : Type := Invoke { input : instruction; session_id : session }.

(** The code-editing agent: what [agent.invoke] answers, given the
    invocations made before it. *)
Definition codebase_agent : Type := list invocation -> invocation -> outcome pyval.

Record agent_state : Type := AgentState {
  trace : list invocation;        (* the invocations issued, oldest first *)
  shown : list console_event      (* what self.console printed *)
}.

Module CodeAgent.
Section Methods.

Variable agent : codebase_agent.
Variable spec : ProjectSpec.t.

Definition nl : string := String (ascii_of_nat 10) EmptyString.

Definition invoke (i : invocation) : M agent_state pyval :=
  fun s => (agent (trace s) i, AgentState (trace s ++ [i]) (shown s)).

Definition console_print (e : console_event) : M agent_state unit :=
  modify (fun s => AgentState (trace s) (shown s ++ [e])).

Definition _execute_file_edit (file_path content : pyval) (session_id : session)
    : M agent_state pyval :=
  invoke (Invoke (EditFile file_path content) session_id).

Definition analyze_codebase : M agent_state pyval :=
  try_except
    (analysis_result <- invoke (Invoke Analyze S_analyze_codebase) ;;
     console_print (Print "[green]✓ Codebase analysis complete[/green]") ;;
     ret analysis_result)
    (fun e =>
       console_print (Print ("[red]Error analyzing codebase: " ++ exn_str e ++ "[/red]")) ;;
       raise e).

Definition _generate_implementation_plan (analysis : pyval) : M agent_state pyval :=
  invoke (Invoke (Plan analysis (ProjectSpec.model_dump spec))
                 S_generate_implementation_plan).

(** [plan.get(a) and plan.get(b)], as a truth value. *)
Definition get_both (plan : pyval) (a b : string) : M agent_state bool :=
  x <- py_get plan a ;;
  if truthy x then y <- py_get plan b ;; ret (truthy y) else ret false.

(** The edit that follows a component or route plan. *)
Definition edit_from_plan (plan : pyval) (session_id : session) : M agent_state unit :=
  both <- get_both plan "file_path" "content" ;;
  if both then
    file_path <- py_getitem plan "file_path" ;;
    content <- py_getitem plan "content" ;;
    _execute_file_edit file_path content session_id ;;
    ret tt
  else ret tt.

(** The edits that follow a table or integration plan. *)
Definition edits_from_files (plan : pyval) (session_of : pyval -> session)
    : M agent_state unit :=
  files <- py_get plan "files" ;;
  if truthy files then
    files <- py_getitem plan "files" ;;
    infos <- py_iter files ;;
    for_each infos (fun file_info =>
      both <- get_both file_info "path" "content" ;;
      if both then
        path <- py_getitem file_info "path" ;;
        content <- py_getitem file_info "content" ;;
        _execute_file_edit path content (session_of path) ;;
        ret tt
      else ret tt)
  else ret tt.

Definition implement_component (implementation_context : pyval) (component : Component.t)
    : M agent_state unit :=
  component_plan <-
    invoke (Invoke (PlanComponent implementation_context (Component.model_dump component))
                   (S_plan_component (Component.name component))) ;;
  edit_from_plan component_plan (S_edit_component (Component.name component)).

Definition _implement_components (implementation_context : pyval) : M agent_state unit :=
  for_each (ProjectStructure.components (ProjectSpec.structure spec))
    (implement_component implementation_context).

Definition implement_api_route (implementation_context : pyval) (route : APIRoute.t)
    : M agent_state unit :=
  route_plan <-
    invoke (Invoke (PlanRoute implementation_context (APIRoute.model_dump route))
                   (S_plan_route (APIRoute.path route))) ;;
  edit_from_plan route_plan (S_edit_route (APIRoute.path route)).

Definition _implement_api_routes (implementation_context : pyval) : M agent_state unit :=
  for_each (ProjectStructure.api_routes (ProjectSpec.structure spec))
    (implement_api_route implementation_context).

Definition implement_table (implementation_context : pyval) (table : SupabaseTable.t)
    : M agent_state unit :=
  table_plan <-
    invoke (Invoke (PlanTable implementation_context (SupabaseTable.model_dump table))
                   (S_plan_table (SupabaseTable.name table))) ;;
  edits_from_files table_plan (S_edit_table (SupabaseTable.name table)).

Definition _implement_database (implementation_context : pyval) : M agent_state unit :=
  for_each (ProjectStructure.database (ProjectSpec.structure spec))
    (implement_table implementation_context).

Definition _integrate_components (implementation_context : pyval) : M agent_state unit :=
  integration_plan <-
    invoke (Invoke (PlanIntegration implementation_context) S_plan_integration) ;;
  edits_from_files integration_plan S_edit_integration.

Definition implement_features : M agent_state string :=
  try_except
    (analysis <- analyze_codebase ;;
     implementation_context <- _generate_implementation_plan analysis ;;
     console_print (Print (nl ++ "[bold]Implementation Plan:[/bold]")) ;;
     console_print (PrintObj implementation_context) ;;
     _implement_components implementation_context ;;
     _implement_api_routes implementation_context ;;
     _implement_database implementation_context ;;
     _integrate_components implementation_context ;;
     console_print (Print "[green]✓ Features implemented successfully[/green]") ;;
     ret "Features implemented successfully")
    (fun e =>
       console_print (Print ("[red]Error implementing features: " ++ exn_str e ++ "[/red]")) ;;
       raise e).

Definition transform_template : M agent_state string :=
  try_except
    (analysis <- analyze_codebase ;;
     console_print (Print (nl ++ "[bold]Codebase Analysis:[/bold]")) ;;
     console_print (PrintObj analysis) ;;
     result <- implement_features ;;
     console_print (Print (nl ++ "[green]✓ Template transformation complete[/green]")) ;;
     ret result)
    (fun e =>
       console_print (Print ("[red]Error transforming template: " ++ exn_str e ++ "[/red]")) ;;
       raise e).

End Methods.
End CodeAgent.

(** The stage of the pipeline an invocation belongs to, read off its
    session. *)
Inductive stage : Type :=
| StAnalyze | StPlan | StComponent | StRoute | StTable | StIntegration.

Definition stage_of (i : invocation) : stage :=
  match session_id i with
  | S_analyze_codebase => StAnalyze
  | S_generate_implementation_plan => StPlan
  | S_plan_component _ | S_edit_component _ => StComponent
  | S_plan_route _ | S_edit_route _ => StRoute
  | S_plan_table _ | S_edit_table _ _ => StTable
  | S_plan_integration | S_edit_integration _ => StIntegration
  end.

Definition rank (s : stage) : nat :=
  match s with
  | StAnalyze => 0 | StPlan => 1 | StComponent => 2
  | StRoute => 3 | StTable => 4 | StIntegration => 5
  end.

Definition is_edit (i : invocation) : bool :=
  match input i with EditFile _ _ => true | _ => false end.

(** ** Vocabulary of the properties *)

(** What the normalised project name holds at each position: a space has
    become an underscore, a capital its small letter. *)
Definition underscored_lower (c : ascii) : ascii :=
  if Ascii.eqb c " " then "_"%char else PyStr.lower_ascii c.

(** A generation unit of the per-unit phase. *)
Inductive work_unit : Type :=
| UComponent (component : Component.t)
| URoute (route : APIRoute.t)
| UTable (table : SupabaseTable.t)
| UIntegration.

(** The planning call of a unit, and the code that handles the unit. *)
Definition plan_invocation (implementation_context : pyval) (u : work_unit) : invocation :=
  match u with
  | UComponent c =>
      Invoke (PlanComponent implementation_context (Component.model_dump c))
             (S_plan_component (Component.name c))
  | URoute r =>
      Invoke (PlanRoute implementation_context (APIRoute.model_dump r))
             (S_plan_route (APIRoute.path r))
  | UTable t =>
      Invoke (PlanTable implementation_context (SupabaseTable.model_dump t))
             (S_plan_table (SupabaseTable.name t))
  | UIntegration => Invoke (PlanIntegration implementation_context) S_plan_integration
  end.

Definition implement_unit (agent : codebase_agent) (implementation_context : pyval)
    (u : work_unit) : M agent_state unit :=
  match u with
  | UComponent c => CodeAgent.implement_component agent implementation_context c
  | URoute r => CodeAgent.implement_api_route agent implementation_context r
  | UTable t => CodeAgent.implement_table agent implementation_context t
  | UIntegration => CodeAgent._integrate_components agent implementation_context
  end.

Definition lacks (k : string) (d : list (string * pyval)) : bool :=
  match assoc k d with None => true | Some _ => false end.

(** A [files] entry that is a dictionary without [path] or without
    [content]. *)
Definition entry_incomplete (e : pyval) : bool :=
  match e with
  | PDict d => lacks "path" d || lacks "content" d
  | _ => false
  end.

(** A planning response that names nothing to edit: no [file_path] or no
    [content]; for a table or the integration, no [files], an empty
    [files] list, or only incomplete entries. *)
Definition names_no_edit (u : work_unit) (response : pyval) : bool :=
  match response with
  | PDict d =>
      match u with
      | UComponent _ | URoute _ => lacks "file_path" d || lacks "content" d
      | UTable _ | UIntegration =>
          match assoc "files" d with
          | None => true
          | Some (PList l) => forallb entry_incomplete l
          | Some _ => false
          end
      end
  | _ => false
  end.

(** The invocations a computation adds to the trace. *)
Definition calls_made {A} (m : M agent_state A) (s : agent_state) : list invocation :=
  drop (length (trace s)) (trace (snd (m s))).

(** Calls of an earlier stage come before calls of a later one. *)
Definition in_stage_order (calls : list invocation) : Prop :=
  forall (i j : nat) (a b : invocation),
    calls !! i = Some a -> calls !! j = Some b ->
    (rank (stage_of a) < rank (stage_of b))%nat -> (i < j)%nat.

(** An iteration the attempt counter takes no account of. *)
Definition is_continue (it : MasterAgent.iteration) : bool :=
  match MasterAgent.ended it with
  | Some MasterAgent.Continue => true
  | _ => false
  end.

(** The world after some more console output. *)
Definition printed (evs : list console_event) (w : world) : world :=
  World (stdin w) (console w ++ evs) (ai_log w) (dirs w) (files w).

(** What [show_features] prints: the title, then the numbered features. *)
Definition listing (title : string) (fs : list string) : list console_event :=
  Print title
    :: map (fun x : nat * string => Print (PyStr.of_nat (fst x) ++ ". " ++ snd x))
           (enumerate fs 1).

(** What the loop body prints before it asks for the choice, and the
    world at that point, with [rest] still to be read. *)
Definition menu : list console_event :=
  [Print (MasterAgent.nl ++ "[bold]Options:[/bold]"); Print "1. Add a feature";
   Print "2. Remove a feature"; Print "3. Done modifying"].

Definition current_title : string :=
  MasterAgent.nl ++ "[bold yellow]Current features:[/bold yellow]".

Definition updated_title : string :=
  MasterAgent.nl ++ "[bold yellow]Updated features:[/bold yellow]".

Definition at_menu (fs : list string) (rest : list string) (w : world) : world :=
  World rest (console w ++ listing current_title fs ++ menu)
        (ai_log w) (dirs w) (files w).

(** A computation only adds invocations that satisfy [P] to the trace. *)
Definition emits {A} (P : invocation -> Prop) (m : M agent_state A) : Prop :=
  forall s, exists calls,
    trace (snd (m s)) = (trace s ++ calls)%list /\ Forall P calls.

Definition stage_is (st : stage) (i : invocation) : Prop := stage_of i = st.

(** The two calls every run of [implement_features] starts with. *)
Definition analyze_call : invocation := Invoke Analyze S_analyze_codebase.

Definition plan_call (analysis : pyval) (spec : ProjectSpec.t) : invocation :=
  Invoke (Plan analysis (ProjectSpec.model_dump spec)) S_generate_implementation_plan.

(** The calls of a run of [implement_features], stage by stage; a run that
    succeeds ([ok]) has made its plan call and its integration call. *)
Definition pipeline_shape (spec : ProjectSpec.t) (ok : bool)
    (calls : list invocation) : Prop :=
  exists p c r t i : list invocation,
    calls = (analyze_call :: p ++ c ++ r ++ t ++ i)%list
    /\ Forall (stage_is StPlan) p
    /\ Forall (stage_is StComponent) c
    /\ Forall (stage_is StRoute) r
    /\ Forall (stage_is StTable) t
    /\ Forall (stage_is StIntegration) i
    /\ (ok = true ->
        (exists analysis, p = [plan_call analysis spec])
        /\ (exists implementation_context edits,
              i = Invoke (PlanIntegration implementation_context) S_plan_integration
                    :: edits)).

Definition is_ok {A} (r : outcome A) : bool :=
  match r with Ok _ => true | Raise _ => false end.

(** A computation reads the operator's input forward only. *)
Definition keeps_input {A} (m : M world A) : Prop :=
  forall w, (length (stdin (snd (m w))) <= length (stdin w))%nat.

(** The iterations of a loop that the attempt counter takes account of. *)
Definition counted (its : list MasterAgent.iteration) : list MasterAgent.iteration :=
  filter (fun it => is_continue it = false) its.

(** ** Sample models, agents and worlds *)

(** A model that enhances every feature and answers nothing else. *)
Definition echo_model : model :=
  Model (fun _ _ => Ok [])
        (fun _ f => Ok (Intent.Build ["Email login with password reset"; f]))
        (fun _ _ => Raise (Exn "RuntimeError" "no answer")).

(** A model whose every call fails. *)
Definition failing_model : model :=
  Model (fun _ _ => Raise (Exn "APIError" "rate limit"))
        (fun _ _ => Raise (Exn "APIError" "rate limit"))
        (fun _ _ => Raise (Exn "APIError" "rate limit")).

(** An empty console and file system, with the lines the operator types. *)
Definition quiet_world (lines : list string) : world := World lines [] [] ∅ ∅.

(** An agent that answers every invocation with an empty dictionary. *)
Definition silent_agent : codebase_agent := fun _ _ => Ok (PDict []).

(** An agent that names a path but no content for every table. *)
Definition pathy_agent : codebase_agent :=
  fun _ _ => Ok (PDict [("files", PList [PDict [("path", PStr "types/user.ts")]])]).

Definition sample_spec : ProjectSpec.t :=
  ProjectSpec.Build "My App" "A small app" ["login"]
    (ProjectStructure.Build
       [Page.Build "/" "Home" ["/api/users"] ["Header"]]
       [Component.Build "Header" "Top bar" false]
       [APIRoute.Build "/api/users" "GET" "List users" "select * from users"]
       [SupabaseTable.Build "users" "create table users (id uuid primary key)"]).

Definition fresh_state : agent_state := AgentState [] [].

(** ** [TestAgent] *)

(** What [client.get(url)] answers: the status code, and what
    [response.json()] gives or raises. *)
Record http_response : Type := HttpResponse { status_code : Z; json : outcome pyval }.

(** The HTTP side: what a request answers, given the requests made before. *)
Definition http_client : Type := list string -> string -> outcome http_response.

(** The object a [TestAgent] is built with: [self.spec.endpoints] exists on
    an object that has the attribute; a [ProjectSpec] declares [name],
    [description], [features] and [structure], and no [endpoints]. *)
Inductive test_spec : Type :=
| WithEndpoints (endpoints : list string)
| AProjectSpec (spec : ProjectSpec.t).

Module TestAgent.
Section Methods.

Variable client : http_client.

(** [client.get(endpoint)]; the state is the list of the URLs requested. *)
Definition get (endpoint : string) : M (list string) http_response :=
  fun requested => (client requested endpoint, (requested ++ [endpoint])%list).

(** [assert b] *)
Definition py_assert (b : bool) : M (list string) unit :=
  if b then ret tt else raise (Exn "AssertionError" "").

(** [v == {"message": "Hello, World!"}]: a dictionary of one item. *)
Definition equals_hello (v : pyval) : bool :=
  match v with
  | PDict [(k, PStr s)] => String.eqb k "message" && String.eqb s "Hello, World!"
  | _ => false
  end.

(** [self.spec.endpoints] *)
Definition endpoints_of (spec : test_spec) : M (list string) (list string) :=
  match spec with
  | WithEndpoints endpoints => ret endpoints
  | AProjectSpec _ =>
      raise (AttributeError "'ProjectSpec' object has no attribute 'endpoints'")
  end.

(** The body of the [for endpoint in ...] loop. *)
Definition check_endpoint (endpoint : string) : M (list string) unit :=
  response <- get endpoint ;;
  py_assert (status_code response =? 200) ;;
  body <- (fun requested => (json response, requested)) ;;
  py_assert (equals_hello body).

Definition backend_serving_test (spec : test_spec) : M (list string) unit :=
  endpoints <- endpoints_of spec ;;
  for_each endpoints check_endpoint.

End Methods.
End TestAgent.

(** An endpoint answer that passes both assertions. *)
Definition greets (r : outcome http_response) : Prop :=
  exists body, r = Ok (HttpResponse 200 (Ok body))
               /\ TestAgent.equals_hello body = true.

(** ** Further vocabulary *)

(** A capital ASCII letter. *)
Definition is_capital (c : ascii) : bool :=
  ((65 <=? nat_of_ascii c) && (nat_of_ascii c <=? 90))%nat.

(** The planning calls among some invocations. *)
Definition plans (calls : list invocation) : list invocation :=
  List.filter (fun c => negb (is_edit c)) calls.

(** The session of the one edit a component or route plan can lead to. *)
Definition single_file_session (u : work_unit) : option session :=
  match u with
  | UComponent c => Some (S_edit_component (Component.name c))
  | URoute r => Some (S_edit_route (APIRoute.path r))
  | UTable _ | UIntegration => None
  end.

(** The session of the edit of a [files] entry of a table or integration
    plan. *)
Definition files_session (u : work_unit) : option (pyval -> session) :=
  match u with
  | UTable t => Some (S_edit_table (SupabaseTable.name t))
  | UIntegration => Some S_edit_integration
  | UComponent _ | URoute _ => None
  end.

(** A [files] entry with a truthy [path] and a truthy [content], and the
    edit it leads to. *)
Definition entry_complete (e : pyval) : bool :=
  match e with
  | PDict d => truthy (default PNone (assoc "path" d))
               && truthy (default PNone (assoc "content" d))
  | _ => false
  end.

Definition entry_edit (session_of : pyval -> session) (e : pyval) : invocation :=
  match e with
  | PDict d =>
      Invoke (EditFile (default PNone (assoc "path" d))
                       (default PNone (assoc "content" d)))
             (session_of (default PNone (assoc "path" d)))
  | _ => Invoke (EditFile PNone PNone) (session_of PNone)
  end.

Definition is_dict (v : pyval) : bool :=
  match v with PDict _ => true | _ => false end.

Definition is_enhance (r : ai_request) : Prop :=
  match r with EnhanceFeature _ => True | _ => False end.

(** A computation leaves the file system alone and asks the model for
    nothing but feature enhancements. *)
Definition only_enhances {A} (m : M world A) : Prop :=
  forall w,
    files (snd (m w)) = files w
    /\ dirs (snd (m w)) = dirs w
    /\ exists reqs, ai_log (snd (m w)) = (ai_log w ++ reqs)%list
                    /\ Forall is_enhance reqs.

(** An agent that answers every invocation. *)
Definition always_answers (agent : codebase_agent) : Prop :=
  forall history i, exists response, agent history i = Ok response.

(** A model that rewrites every feature the same way. *)
Definition rewording_model : model :=
  Model (fun _ _ => Ok [Some (Intent.Build ["login"]); None])
        (fun _ _ => Ok (Intent.Build ["Email login with password reset"]))
        (fun _ i => Ok (ProjectSpec.Build "My App" "A small app" (Intent.features i)
                          (ProjectStructure.Build [] [] [] []))).

(** A server on which only [/health] greets. *)
Definition one_good_endpoint : http_client :=
  fun _ url =>
    if String.eqb url "/health"
    then Ok (HttpResponse 200 (Ok (PDict [("message", PStr "Hello, World!")])))
    else Ok (HttpResponse 404 (Raise (Exn "JSONDecodeError" "Expecting value"))).

(** An agent whose every answer names one file in full, both as
    [file_path]/[content] and as a [files] list that also holds an entry
    without content. *)
Definition filing_agent : codebase_agent :=
  fun _ _ =>
    Ok (PDict [("file_path", PStr "app/page.tsx");
               ("content", PStr "export default function Page() {}");
               ("files", PList [PDict [("path", PStr "types/user.ts");
                                       ("content", PStr "export type User = {}")];
                                PDict [("path", PStr "types/empty.ts")]])]).

(** * Properties *)

Example spec_file_my_app : spec_file "My App" = "specs/my_app_spec.json".
Proof. reflexivity. Qed.

Example spec_file_absolute : spec_file "/Tmp" = "/tmp_spec.json".
Proof. reflexivity. Qed.

Example dirname_nested : dirname "specs/a/b_spec.json" = "specs/a".
Proof. reflexivity. Qed.

Example dirname_root : dirname "/tmp_spec.json" = "/".
Proof. reflexivity. Qed.


(** ** The monad's equations *)

Lemma bind_ok {S A B} (m : M S A) (k : A -> M S B) (s s' : S) (a : A) :
  m s = (Ok a, s') -> bind m k s = k a s'.
Proof. intros H. unfold bind. now rewrite H. Qed.

Lemma bind_raise {S A B} (m : M S A) (k : A -> M S B) (s s' : S) (e : exn) :
  m s = (Raise e, s') -> bind m k s = (Raise e, s').
Proof. intros H. unfold bind. now rewrite H. Qed.

Lemma bind_inv_ok {S A B} (m : M S A) (k : A -> M S B) (s s' : S) (b : B) :
  bind m k s = (Ok b, s') ->
  exists a s1, m s = (Ok a, s1) /\ k a s1 = (Ok b, s').
Proof.
  unfold bind. destruct (m s) as [[a|e] s1]; intros H.
  - now exists a, s1.
  - discriminate.
Qed.

Lemma try_except_ok {S A} (m : M S A) (h : exn -> M S A) (s s' : S) (a : A) :
  m s = (Ok a, s') -> try_except m h s = (Ok a, s').
Proof. intros H. unfold try_except. now rewrite H. Qed.

Lemma try_except_raise {S A} (m : M S A) (h : exn -> M S A) (s s' : S) (e : exn) :
  m s = (Raise e, s') -> try_except m h s = h e s'.
Proof. intros H. unfold try_except. now rewrite H. Qed.

(** ** The spec file path (C6) *)

Section SpecFile.

Lemma lower_ascii_slash (c : ascii) :
  Ascii.eqb "/" (PyStr.lower_ascii c) = Ascii.eqb "/" c.
Proof. destruct c as [[] [] [] [] [] [] [] []]; reflexivity. Qed.

Lemma lower_ascii_space (c : ascii) :
  Ascii.eqb (PyStr.lower_ascii c) " " = Ascii.eqb c " ".
Proof. destruct c as [[] [] [] [] [] [] [] []]; reflexivity. Qed.

Lemma startswith_slash_cons (c : ascii) (s : string) :
  PyStr.startswith "/" (String c s) = Ascii.eqb "/" c.
Proof. cbv [PyStr.startswith]. apply andb_true_r. Qed.

Lemma normalised_get (name : string) (n : nat) :
  String.get n (PyStr.replace " " "_" (PyStr.lower name))
  = option_map underscored_lower (String.get n name).
Proof.
  revert n. induction name as [|c r IH]; intros n; [reflexivity|].
  cbn [PyStr.lower PyStr.replace].
  rewrite lower_ascii_space. unfold underscored_lower at 1.
  destruct (Ascii.eqb c " ") eqn:E.
  - destruct n; cbn; [now unfold underscored_lower; rewrite E | apply IH].
  - destruct n; cbn; [now unfold underscored_lower; rewrite E | apply IH].
Qed.

Lemma normalised_startswith_slash (name suffix : string) :
  PyStr.startswith "/" suffix = false ->
  PyStr.startswith "/" (PyStr.replace " " "_" (PyStr.lower name) ++ suffix)
  = PyStr.startswith "/" name.
Proof.
  intros Hs. destruct name as [|c r]; [exact Hs|].
  cbn [PyStr.lower PyStr.replace]. rewrite lower_ascii_space.
  destruct (Ascii.eqb c " ") eqn:E.
  - apply Ascii.eqb_eq in E. subst c. reflexivity.
  - change (PyStr.startswith "/"
              (String (PyStr.lower_ascii c)
                 (PyStr.replace " " "_" (PyStr.lower r) ++ suffix))
            = PyStr.startswith "/" (String c r)).
    rewrite !startswith_slash_cons. apply lower_ascii_slash.
Qed.

End SpecFile.

(** C6, as stated, fails: a project name that begins with a slash gives a
    path outside the specs directory, since [os.path.join] drops what
    precedes an absolute component. *)
Lemma spec_file_absolute_name_escapes :
  spec_file "/Tmp App" = "/tmp_app_spec.json"
  /\ spec_file "/Tmp App"
     <> "specs/" ++ PyStr.replace " " "_" (PyStr.lower "/Tmp App") ++ "_spec.json".
Proof. split; [reflexivity | discriminate]. Qed.

(** C6, amended: for a project name that does not begin with a slash, the
    spec file is [specs/<normalised name>_spec.json], where the normalised
    name holds, position by position, the small letter of each character
    and an underscore for each space; "My App" gives
    [specs/my_app_spec.json]. *)
Theorem spec_file_under_specs (name : string) :
  PyStr.startswith "/" name = false ->
  spec_file name
  = "specs/" ++ PyStr.replace " " "_" (PyStr.lower name) ++ "_spec.json"
  /\ (forall n : nat,
        String.get n (PyStr.replace " " "_" (PyStr.lower name))
        = option_map underscored_lower (String.get n name))
  /\ spec_file "My App" = "specs/my_app_spec.json".
Proof.
  intros Hname. split; [|split].
  - unfold spec_file, OsPath.join.
    rewrite normalised_startswith_slash by reflexivity.
    now rewrite Hname.
  - intros n. apply normalised_get.
  - reflexivity.
Qed.

Lemma spec_file_under_specs_witness :
  PyStr.startswith "/" "Todo List" = false
  /\ spec_file "Todo List" = "specs/todo_list_spec.json".
Proof.
  split; [reflexivity|].
  exact (proj1 (spec_file_under_specs "Todo List" eq_refl)).
Defined.

(** ** The operator's answers *)

Section Prompts.

Lemma ask_until_ok (valid : string -> bool) (w : world) (l : string) (r : list string) :
  read_valid valid (stdin w) = Some (l, r) ->
  ask_until valid w = (Ok l, set_stdin r w).
Proof. intros H. unfold ask_until. now rewrite H. Qed.

Lemma Confirm_ask_ok (prompt : string) (w : world) (l : string) (r : list string) :
  read_valid (one_of ["y"; "n"]) (stdin w) = Some (l, r) ->
  Confirm_ask prompt w = (Ok (String.eqb l "y"), set_stdin r w).
Proof.
  intros H. unfold Confirm_ask.
  now rewrite (bind_ok _ _ _ _ _ (ask_until_ok _ _ _ _ H)).
Qed.

Lemma Prompt_ask_ok (prompt : string) (cs : list string) (w : world)
    (l : string) (r : list string) :
  read_valid (one_of cs) (stdin w) = Some (l, r) ->
  Prompt_ask prompt (Some cs) w = (Ok l, set_stdin r w).
Proof. apply ask_until_ok. Qed.

Lemma Prompt_ask_text (prompt : string) (w : world) (l : string) (r : list string) :
  stdin w = l :: r ->
  Prompt_ask prompt None w = (Ok l, set_stdin r w).
Proof. intros H. apply ask_until_ok. now rewrite H. Qed.

Lemma read_valid_shorter (valid : string -> bool) (lines : list string)
    (l : string) (r : list string) :
  read_valid valid lines = Some (l, r) -> (length r < length lines)%nat.
Proof.
  induction lines as [|x xs IH]; cbn; [discriminate|].
  destruct (valid x).
  - intros [= _ <-]. lia.
  - intros H. specialize (IH H). lia.
Qed.

End Prompts.

(** ** [validate_feature] (C8) *)

(** C8: [validate_feature] returns the first feature of the model's
    response when the response has one, and the feature it was given when
    the response's feature list is empty. *)
Theorem validate_feature_result (ai : model) (feature : string) (w : world)
    (intent : Intent.t) :
  call_ai_intent ai (ai_log w) feature = Ok intent ->
  (forall first rest,
      Intent.features intent = first :: rest ->
      fst (MasterAgent.validate_feature ai feature w) = Ok first)
  /\ (Intent.features intent = [] ->
      fst (MasterAgent.validate_feature ai feature w) = Ok feature).
Proof.
  intros Hcall.
  assert (E : MasterAgent.validate_feature ai feature w
              = (Ok (match Intent.features intent with
                     | first :: _ => first
                     | [] => feature
                     end), log_request (EnhanceFeature feature) w)).
  { unfold MasterAgent.validate_feature, bind, ask_model. now rewrite Hcall. }
  rewrite E. split.
  - intros first rest ->. reflexivity.
  - intros ->. reflexivity.
Qed.

Lemma validate_feature_result_witness :
  fst (MasterAgent.validate_feature echo_model "login" (quiet_world []))
  = Ok "Email login with password reset".
Proof.
  exact (proj1 (validate_feature_result echo_model "login" (quiet_world []) _ eq_refl)
           _ _ eq_refl).
Defined.

(** ** Failing model calls (C1) *)

(** C1: when the model call of [understand_intent] or of [create_spec]
    raises, the method raises a [ValueError] that wraps the stage's message
    and the cause; a failed [create_spec] leaves the file system as it was,
    so a spec file that was absent is still absent. *)
Theorem model_failure_is_wrapped (ai : model) (user_input : string)
    (intent : Intent.t) (w : world) (e1 e2 : exn) :
  chat_parse ai (ai_log w) user_input = Raise e1 ->
  call_ai_spec ai (ai_log w) intent = Raise e2 ->
  fst (MasterAgent.understand_intent ai user_input w)
  = Raise (ValueError ("Failed to understand intent: " ++ exn_str e1))
  /\ fst (MasterAgent.create_spec ai intent w)
     = Raise (ValueError ("Failed to create specification: " ++ exn_str e2))
  /\ files (snd (MasterAgent.create_spec ai intent w)) = files w
  /\ dirs (snd (MasterAgent.create_spec ai intent w)) = dirs w
  /\ console (snd (MasterAgent.create_spec ai intent w)) = console w
  /\ (forall path : string,
        files w !! path = None ->
        files (snd (MasterAgent.create_spec ai intent w)) !! path = None).
Proof.
  intros H1 H2.
  assert (E1 : MasterAgent.understand_intent ai user_input w
               = (Raise (ValueError ("Failed to understand intent: " ++ exn_str e1)),
                  log_request (ParseIntent user_input) w)).
  { unfold MasterAgent.understand_intent.
    erewrite try_except_raise; [reflexivity|].
    apply bind_raise. unfold ask_model. now rewrite H1. }
  assert (E2 : MasterAgent.create_spec ai intent w
               = (Raise (ValueError ("Failed to create specification: " ++ exn_str e2)),
                  log_request (GenerateSpec (Intent.model_dump intent)) w)).
  { unfold MasterAgent.create_spec.
    erewrite try_except_raise; [reflexivity|].
    apply bind_raise. unfold ask_model. now rewrite H2. }
  rewrite E1, E2. cbn. repeat split; auto.
Qed.

Lemma model_failure_is_wrapped_witness :
  fst (MasterAgent.understand_intent
         failing_model
         "a todo app" (quiet_world []))
  = Raise (ValueError "Failed to understand intent: rate limit")
  /\ files (snd (MasterAgent.create_spec
                   failing_model
                   (Intent.Build ["todo list"]) (quiet_world [])))
     !! "specs/todo_spec.json" = None.
Proof.
  pose proof (model_failure_is_wrapped
                failing_model
                "a todo app" (Intent.Build ["todo list"]) (quiet_world [])
                _ _ eq_refl eq_refl) as (H1 & _ & _ & _ & _ & H6).
  split; [exact H1 | apply H6; reflexivity].
Defined.

(** ** The refinement loop *)

Section Console.

Lemma printed_nil (w : world) : printed [] w = w.
Proof. destruct w. unfold printed. cbn. now rewrite app_nil_r. Qed.

Lemma printed_printed (e1 e2 : list console_event) (w : world) :
  printed e2 (printed e1 w) = printed (e1 ++ e2) w.
Proof. unfold printed. cbn. now rewrite app_assoc. Qed.

Lemma console_print_eq (s : string) (w : world) :
  console_print s w = (Ok tt, printed [Print s] w).
Proof. reflexivity. Qed.

Lemma print_each_eq {A} (g : A -> string) (l : list A) (w : world) :
  for_each l (fun x => console_print (g x)) w
  = (Ok tt, printed (map (fun x => Print (g x)) l) w).
Proof.
  revert w. induction l as [|x l IH]; intros w; cbn [for_each map].
  - now rewrite printed_nil.
  - rewrite (bind_ok _ _ _ _ _ (console_print_eq _ _)), IH.
    now rewrite printed_printed.
Qed.

Lemma for_each_ext {S A} (f g : A -> M S unit) (l : list A) :
  (forall x, f x = g x) -> for_each l f = for_each l g.
Proof.
  intros H. induction l as [|x l IH]; cbn [for_each]; [reflexivity|].
  now rewrite H, IH.
Qed.

Lemma show_features_eq (title : string) (fs : list string) (w : world) :
  MasterAgent.show_features title fs w = (Ok tt, printed (listing title fs) w).
Proof.
  unfold MasterAgent.show_features.
  rewrite (bind_ok _ _ _ _ _ (console_print_eq _ _)).
  rewrite (for_each_ext _
             (fun x => console_print (PyStr.of_nat (fst x) ++ ". " ++ snd x)))
    by (now intros [i feature]).
  rewrite (print_each_eq (fun x => PyStr.of_nat (fst x) ++ ". " ++ snd x)).
  now rewrite printed_printed.
Qed.

End Console.

Section LoopBody.

Variable ai : model.

(** The body up to the operator's choice. *)
Lemma loop_body_at_menu (v : MasterAgent.loop_vars) (w : world)
    (r1 r2 : list string) (choice : string) :
  read_valid (one_of ["y"; "n"]) (stdin w) = Some ("y", r1) ->
  read_valid (one_of ["1"; "2"; "3"]) r1 = Some (choice, r2) ->
  MasterAgent.loop_body ai v w
  = (if String.eqb choice "1" then
       fs <- MasterAgent.add_feature ai (MasterAgent.features v) ;;
       MasterAgent.end_of_body fs v
     else if String.eqb choice "2" then
       match MasterAgent.features v with
       | [] =>
           console_print "[yellow]No features to remove[/yellow]" ;;
           ret (MasterAgent.Continue, v)
       | _ =>
           fs <- MasterAgent.remove_feature (MasterAgent.features v) ;;
           MasterAgent.end_of_body fs v
       end
     else ret (MasterAgent.Break, v))
      (at_menu (MasterAgent.features v) r2 w).
Proof.
  intros Hy Hc. unfold MasterAgent.loop_body.
  rewrite (bind_ok _ _ _ _ _ (show_features_eq _ _ _)).
  erewrite bind_ok; [|apply Confirm_ask_ok; exact Hy].
  cbn [String.eqb Ascii.eqb Bool.eqb negb].
  rewrite !(bind_ok _ _ _ _ _ (console_print_eq _ _)).
  erewrite bind_ok; [|apply Prompt_ask_ok; exact Hc].
  unfold at_menu, printed, set_stdin, menu, current_title. cbn.
  rewrite <- !app_assoc. reflexivity.
Qed.

(** The body when the operator declines to modify. *)
Lemma loop_body_declined (v : MasterAgent.loop_vars) (w : world) (r1 : list string) :
  read_valid (one_of ["y"; "n"]) (stdin w) = Some ("n", r1) ->
  exists w', MasterAgent.loop_body ai v w = (Ok (MasterAgent.Break, v), w')
             /\ stdin w' = r1.
Proof.
  intros Hn. unfold MasterAgent.loop_body.
  rewrite (bind_ok _ _ _ _ _ (show_features_eq _ _ _)).
  erewrite bind_ok; [|apply Confirm_ask_ok; exact Hn].
  cbn. eauto.
Qed.

End LoopBody.

(** ** Removing on an empty list (C10) *)

(** C10: when the operator chooses to remove while the feature list is
    empty, the body ends in [continue] with the features and the attempt
    counter as they were, and the loop goes on with the same counter: the
    iteration is not counted. *)
Theorem remove_on_empty_list_is_not_counted (ai : model) (v : MasterAgent.loop_vars)
    (w : world) (r1 r2 : list string) :
  MasterAgent.features v = [] ->
  read_valid (one_of ["y"; "n"]) (stdin w) = Some ("y", r1) ->
  read_valid (one_of ["1"; "2"; "3"]) r1 = Some ("2", r2) ->
  exists w' : world,
    MasterAgent.loop_body ai v w = (Ok (MasterAgent.Continue, v), w')
    /\ stdin w' = r2
    /\ In (Print "[yellow]No features to remove[/yellow]") (console w')
    /\ forall (max_attempts : Z) (fuel : nat),
         MasterAgent.attempts v < max_attempts ->
         MasterAgent.while_loop ai max_attempts (S fuel) v w
         = match MasterAgent.while_loop ai max_attempts fuel v w' with
           | Some (its, r) =>
               Some (MasterAgent.Iteration v (Some MasterAgent.Continue) :: its, r)
           | None => None
           end.
Proof.
  intros Hfs Hy Hc.
  pose proof (loop_body_at_menu ai v w r1 r2 "2" Hy Hc) as E.
  rewrite Hfs in E. cbn [String.eqb Ascii.eqb Bool.eqb] in E.
  rewrite (bind_ok _ _ _ _ _ (console_print_eq _ _)) in E.
  eexists. split; [exact E|]. split; [reflexivity|]. split.
  - cbn. rewrite !in_app_iff. cbn [In]. intuition congruence.
  - intros max_attempts fuel Hlt. cbn [MasterAgent.while_loop].
    apply Z.ltb_lt in Hlt. rewrite Hlt, E. reflexivity.
Qed.

Lemma remove_on_empty_list_is_not_counted_witness :
  exists w' : world,
    MasterAgent.loop_body failing_model (MasterAgent.Vars [] 0)
      (quiet_world ["y"; "2"; "n"])
    = (Ok (MasterAgent.Continue, MasterAgent.Vars [] 0), w')
    /\ stdin w' = ["n"].
Proof.
  destruct (remove_on_empty_list_is_not_counted failing_model
              (MasterAgent.Vars [] 0) (quiet_world ["y"; "2"; "n"])
              ["2"; "n"] ["n"] eq_refl eq_refl eq_refl) as (w' & E & Hin & _).
  exists w'. split; assumption.
Defined.

(** ** A failing enhancement (C7) *)

(** C7: on the add path, when the operator asks for the enhancement and
    the enhancement call raises, the error is printed to the console, the
    feature as typed is appended, and the body reaches its end with the
    counter advanced, so the loop goes on. *)
Theorem failed_enhancement_keeps_raw_feature (ai : model) (v : MasterAgent.loop_vars)
    (w : world) (r1 r2 r3 : list string) (new_feature : string) (e : exn) :
  read_valid (one_of ["y"; "n"]) (stdin w) = Some ("y", r1) ->
  read_valid (one_of ["1"; "2"; "3"]) r1 = Some ("1", new_feature :: r2) ->
  read_valid (one_of ["y"; "n"]) r2 = Some ("y", r3) ->
  call_ai_intent ai (ai_log w) new_feature = Raise e ->
  exists w' : world,
    MasterAgent.loop_body ai v w
    = (Ok (MasterAgent.Fallthrough,
           MasterAgent.Vars (MasterAgent.features v ++ [new_feature])
                            (MasterAgent.attempts v + 1)), w')
    /\ In (Print ("[red]Error validating feature: " ++ exn_str e ++ "[/red]"))
          (console w')
    /\ stdin w' = r3
    /\ forall (max_attempts : Z) (fuel : nat),
         MasterAgent.attempts v < max_attempts ->
         MasterAgent.while_loop ai max_attempts (S fuel) v w
         = match MasterAgent.while_loop ai max_attempts fuel
                   (MasterAgent.Vars (MasterAgent.features v ++ [new_feature])
                                     (MasterAgent.attempts v + 1)) w' with
           | Some (its, r) =>
               Some (MasterAgent.Iteration v (Some MasterAgent.Fallthrough) :: its, r)
           | None => None
           end.
Proof.
  intros Hy Hc Hyes Hfail.
  enough (Hbody : exists w' : world,
             MasterAgent.loop_body ai v w
             = (Ok (MasterAgent.Fallthrough,
                    MasterAgent.Vars (MasterAgent.features v ++ [new_feature])
                                     (MasterAgent.attempts v + 1)), w')
             /\ In (Print ("[red]Error validating feature: " ++ exn_str e ++ "[/red]"))
                   (console w')
             /\ stdin w' = r3).
  { destruct Hbody as (w' & E & Hin & Hrest). exists w'. repeat split; trivial.
    intros max_attempts fuel Hlt. cbn [MasterAgent.while_loop].
    apply Z.ltb_lt in Hlt. now rewrite Hlt, E. }
  rewrite (loop_body_at_menu ai v w r1 _ "1" Hy Hc).
  cbn [String.eqb Ascii.eqb Bool.eqb].
  assert (Eadd : MasterAgent.add_feature ai (MasterAgent.features v)
                   (at_menu (MasterAgent.features v) (new_feature :: r2) w)
                 = (Ok (MasterAgent.features v ++ [new_feature])%list,
                    printed [StatusStart "[bold green]Validating feature...";
                             StatusStop;
                             Print ("[red]Error validating feature: "
                                      ++ exn_str e ++ "[/red]")]
                      (log_request (EnhanceFeature new_feature)
                         (at_menu (MasterAgent.features v) r3 w)))).
  { unfold MasterAgent.add_feature.
    erewrite bind_ok; [|apply Prompt_ask_text; reflexivity].
    erewrite bind_ok; [|apply Confirm_ask_ok; exact Hyes].
    cbn [String.eqb Ascii.eqb Bool.eqb].
    erewrite bind_ok; [reflexivity|].
    erewrite bind_ok; [|reflexivity].
    erewrite try_except_raise.
    2:{ apply bind_raise. unfold MasterAgent.validate_feature.
        apply bind_raise. unfold ask_model. cbn. rewrite Hfail. reflexivity. }
    cbn. unfold printed, log_request, emit. cbn. rewrite <- !app_assoc. reflexivity. }
  rewrite (bind_ok _ _ _ _ _ Eadd).
  unfold MasterAgent.end_of_body.
  rewrite (bind_ok _ _ _ _ _ (show_features_eq _ _ _)).
  eexists. split; [reflexivity|]. split.
  - cbn. rewrite !in_app_iff. cbn [In]. intuition congruence.
  - reflexivity.
Qed.

Lemma failed_enhancement_keeps_raw_feature_witness :
  exists w' : world,
    MasterAgent.loop_body failing_model (MasterAgent.Vars ["login"] 0)
      (quiet_world ["y"; "1"; "dark mode"; "y"; "n"])
    = (Ok (MasterAgent.Fallthrough, MasterAgent.Vars ["login"; "dark mode"] 1), w')
    /\ In (Print "[red]Error validating feature: rate limit[/red]") (console w')
    /\ stdin w' = ["n"].
Proof.
  destruct (failed_enhancement_keeps_raw_feature failing_model
              (MasterAgent.Vars ["login"] 0)
              (quiet_world ["y"; "1"; "dark mode"; "y"; "n"])
              ["1"; "dark mode"; "y"; "n"] ["y"; "n"] ["n"] "dark mode"
              (Exn "APIError" "rate limit") eq_refl eq_refl eq_refl eq_refl)
    as (w' & E & Hin & Hrest & _).
  exists w'. repeat split; assumption.
Defined.

(** ** Removing a feature (C3) *)

Section Remove.

Lemma to_int_of_nat (n : nat) : PyStr.to_int (PyStr.of_nat n) = Some (Z.of_nat n).
Proof.
  unfold PyStr.to_int, PyStr.of_nat.
  generalize (NilEmpty.usu (Nat.to_uint n)) (DecimalNat.Unsigned.of_to n).
  destruct (Nat.to_uint n); intros U Hn;
    cbn [NilZero.string_of_uint NilEmpty.string_of_uint] in *.
  1: now subst n.
  all: now rewrite U, Hn.
Qed.

Lemma of_nat_is_a_choice (i n : nat) :
  (1 <= i <= n)%nat -> one_of (map PyStr.of_nat (seq 1 n)) (PyStr.of_nat i) = true.
Proof.
  intros Hi. unfold one_of. apply existsb_exists.
  exists (PyStr.of_nat i). split; [|apply String.eqb_refl].
  apply in_map, in_seq. lia.
Qed.

Lemma py_pop_in_range {St A} (l : list A) (i : nat) (s : St) :
  (1 <= i <= length l)%nat ->
  py_pop l (Z.of_nat i - 1) s = (Ok (firstn (i - 1) l ++ skipn i l)%list, s).
Proof.
  intros Hi. unfold py_pop. cbv zeta.
  assert (H1 : (Z.of_nat i - 1 <? 0) = false) by (apply Z.ltb_ge; lia).
  assert (H2 : (Z.of_nat (length l) =? 0) = false) by (apply Z.eqb_neq; lia).
  assert (H3 : (Z.of_nat (length l) <=? Z.of_nat i - 1) = false)
    by (apply Z.leb_gt; lia).
  rewrite !H1, H2, H3. cbn [orb]. unfold ret.
  replace (Z.to_nat (Z.of_nat i - 1)) with (i - 1)%nat by lia.
  rewrite delete_take_drop.
  now replace (S (i - 1)) with i by lia.
Qed.

End Remove.

(** C3: when the operator removes the feature numbered [i], with
    [1 <= i <= n] for a list of [n] features, the list becomes the features
    before the [i]-th followed by those after it, of length [n - 1]. *)
Theorem remove_deletes_indexed_feature (ai : model) (v : MasterAgent.loop_vars)
    (w : world) (r1 r2 : list string) (i : nat) :
  (1 <= i <= length (MasterAgent.features v))%nat ->
  read_valid (one_of ["y"; "n"]) (stdin w) = Some ("y", r1) ->
  read_valid (one_of ["1"; "2"; "3"]) r1 = Some ("2", PyStr.of_nat i :: r2) ->
  exists w' : world,
    MasterAgent.loop_body ai v w
    = (Ok (MasterAgent.Fallthrough,
           MasterAgent.Vars
             (firstn (i - 1) (MasterAgent.features v)
                ++ skipn i (MasterAgent.features v))
             (MasterAgent.attempts v + 1)), w')
    /\ length (firstn (i - 1) (MasterAgent.features v)
                 ++ skipn i (MasterAgent.features v))
       = (length (MasterAgent.features v) - 1)%nat
    /\ (forall k : nat,
          (firstn (i - 1) (MasterAgent.features v)
             ++ skipn i (MasterAgent.features v))%list !! k
          = MasterAgent.features v !! (if (k <? i - 1)%nat then k else S k))
    /\ stdin w' = r2.
Proof.
  intros Hi Hy Hc.
  rewrite (loop_body_at_menu ai v w r1 _ "2" Hy Hc).
  cbn [String.eqb Ascii.eqb Bool.eqb].
  set (fs := MasterAgent.features v) in *.
  assert (Erm : MasterAgent.remove_feature fs (at_menu fs (PyStr.of_nat i :: r2) w)
                = (Ok (firstn (i - 1) fs ++ skipn i fs)%list, at_menu fs r2 w)).
  { unfold MasterAgent.remove_feature.
    erewrite bind_ok.
    2:{ apply Prompt_ask_ok. cbn [stdin at_menu read_valid].
        now rewrite (of_nat_is_a_choice i (length fs) Hi). }
    unfold py_int. rewrite to_int_of_nat.
    erewrite bind_ok; [|reflexivity].
    now rewrite py_pop_in_range. }
  assert (Ebody : (match fs with
                   | [] =>
                       console_print "[yellow]No features to remove[/yellow]" ;;
                       ret (MasterAgent.Continue, v)
                   | _ :: _ =>
                       fs' <- MasterAgent.remove_feature fs ;;
                       MasterAgent.end_of_body fs' v
                   end) (at_menu fs (PyStr.of_nat i :: r2) w)
                  = (fs' <- MasterAgent.remove_feature fs ;;
                     MasterAgent.end_of_body fs' v)
                      (at_menu fs (PyStr.of_nat i :: r2) w)).
  { destruct fs; [cbn in Hi; lia | reflexivity]. }
  rewrite Ebody, (bind_ok _ _ _ _ _ Erm).
  unfold MasterAgent.end_of_body.
  rewrite (bind_ok _ _ _ _ _ (show_features_eq _ _ _)).
  eexists. split; [reflexivity|]. split; [|split; [|reflexivity]].
  - rewrite length_app, length_take, length_drop. lia.
  - intros k. destruct (Nat.ltb_spec k (i - 1)).
    + rewrite lookup_app_l by (rewrite length_take; lia).
      apply lookup_take_lt. lia.
    + rewrite lookup_app_r by (rewrite length_take; lia).
      rewrite length_take, lookup_drop. f_equal. lia.
Qed.

Lemma remove_deletes_indexed_feature_witness :
  exists w' : world,
    MasterAgent.loop_body failing_model (MasterAgent.Vars ["login"; "search"; "chat"] 0)
      (quiet_world ["y"; "2"; "2"; "n"])
    = (Ok (MasterAgent.Fallthrough, MasterAgent.Vars ["login"; "chat"] 1), w')
    /\ stdin w' = ["n"].
Proof.
  destruct (remove_deletes_indexed_feature failing_model
              (MasterAgent.Vars ["login"; "search"; "chat"] 0)
              (quiet_world ["y"; "2"; "2"; "n"]) ["2"; "2"; "n"] ["n"] 2
              (conj (le_S 1 1 (le_n 1)) (le_S 2 2 (le_n 2))) eq_refl eq_refl)
    as (w' & E & _ & _ & Hrest).
  exists w'. split; assumption.
Defined.

(** ** The invocations of [CodeAgent] *)

Section Emits.

Variable agent : codebase_agent.

Lemma emits_ret {A} P (a : A) : emits P (ret a).
Proof. intros s. exists []. cbn. now rewrite app_nil_r. Qed.

Lemma emits_raise {A} P (e : exn) : emits P (@raise _ A e).
Proof. intros s. exists []. cbn. now rewrite app_nil_r. Qed.

Lemma emits_console_print P (e : console_event) : emits P (CodeAgent.console_print e).
Proof. intros s. exists []. cbn. now rewrite app_nil_r. Qed.

Lemma emits_invoke (P : invocation -> Prop) (i : invocation) :
  P i -> emits P (CodeAgent.invoke agent i).
Proof. intros Hi s. exists [i]. cbn. auto. Qed.

Lemma emits_bind {A B} P (m : M agent_state A) (k : A -> M agent_state B) :
  emits P m -> (forall a, emits P (k a)) -> emits P (bind m k).
Proof.
  intros Hm Hk s. destruct (Hm s) as (c1 & E1 & F1). unfold bind.
  destruct (m s) as [[a|e] s1]; cbn in E1.
  - destruct (Hk a s1) as (c2 & E2 & F2). exists (c1 ++ c2)%list.
    rewrite E2, E1, app_assoc. split; [reflexivity | now apply Forall_app].
  - now exists c1.
Qed.

Lemma emits_try_except {A} P (m : M agent_state A) (h : exn -> M agent_state A) :
  emits P m -> (forall e, emits P (h e)) -> emits P (try_except m h).
Proof.
  intros Hm Hh s. destruct (Hm s) as (c1 & E1 & F1). unfold try_except.
  destruct (m s) as [[a|e] s1]; cbn in E1.
  - now exists c1.
  - destruct (Hh e s1) as (c2 & E2 & F2). exists (c1 ++ c2)%list.
    rewrite E2, E1, app_assoc. split; [reflexivity | now apply Forall_app].
Qed.

Lemma emits_for_each {A} P (l : list A) (body : A -> M agent_state unit) :
  (forall x, emits P (body x)) -> emits P (for_each l body).
Proof.
  intros Hb. induction l as [|x l IH]; cbn [for_each].
  - apply emits_ret.
  - apply emits_bind; auto.
Qed.

Lemma emits_py_get P (v : pyval) (k : string) : emits P (py_get v k).
Proof. destruct v; cbn; auto using emits_ret, emits_raise. Qed.

Lemma emits_py_getitem P (v : pyval) (k : string) : emits P (py_getitem v k).
Proof.
  destruct v; cbn; auto using emits_raise.
  destruct (assoc k d); auto using emits_ret, emits_raise.
Qed.

Lemma emits_py_iter P (v : pyval) : emits P (py_iter v).
Proof. destruct v; cbn; auto using emits_ret, emits_raise. Qed.

Lemma emits_get_both P (v : pyval) (a b : string) :
  emits P (CodeAgent.get_both v a b).
Proof.
  unfold CodeAgent.get_both. apply emits_bind; [apply emits_py_get|].
  intros x. destruct (truthy x); [|apply emits_ret].
  apply emits_bind; [apply emits_py_get | intros; apply emits_ret].
Qed.

Lemma emits_edit_from_plan (P : invocation -> Prop) (plan : pyval) (sid : session) :
  (forall file_path content, P (Invoke (EditFile file_path content) sid)) ->
  emits P (CodeAgent.edit_from_plan agent plan sid).
Proof.
  intros HP. unfold CodeAgent.edit_from_plan.
  apply emits_bind; [apply emits_get_both|]. intros [|]; [|apply emits_ret].
  apply emits_bind; [apply emits_py_getitem|]. intros file_path.
  apply emits_bind; [apply emits_py_getitem|]. intros content.
  apply emits_bind; [apply emits_invoke, HP | intros; apply emits_ret].
Qed.

Lemma emits_edits_from_files (P : invocation -> Prop) (plan : pyval)
    (session_of : pyval -> session) :
  (forall path content, P (Invoke (EditFile path content) (session_of path))) ->
  emits P (CodeAgent.edits_from_files agent plan session_of).
Proof.
  intros HP. unfold CodeAgent.edits_from_files.
  apply emits_bind; [apply emits_py_get|]. intros files.
  destruct (truthy files); [|apply emits_ret].
  apply emits_bind; [apply emits_py_getitem|]. intros files'.
  apply emits_bind; [apply emits_py_iter|]. intros infos.
  apply emits_for_each. intros file_info.
  apply emits_bind; [apply emits_get_both|]. intros [|]; [|apply emits_ret].
  apply emits_bind; [apply emits_py_getitem|]. intros path.
  apply emits_bind; [apply emits_py_getitem|]. intros content.
  apply emits_bind; [apply emits_invoke, HP | intros; apply emits_ret].
Qed.

End Emits.

(** ** Plans that name no file (C5) *)

Section NoEdit.

Variable agent : codebase_agent.

Lemma invoke_ok (i : invocation) (s : agent_state) (response : pyval) :
  agent (trace s) i = Ok response ->
  CodeAgent.invoke agent i s = (Ok response, AgentState (trace s ++ [i]) (shown s)).
Proof. intros H. unfold CodeAgent.invoke. now rewrite H. Qed.

Lemma get_both_lacking (d : list (string * pyval)) (a b : string) (s : agent_state) :
  lacks a d || lacks b d = true ->
  CodeAgent.get_both (PDict d) a b s = (Ok false, s).
Proof.
  unfold lacks, CodeAgent.get_both, py_get, bind, ret. intros H.
  destruct (assoc a d) as [x|]; [|reflexivity]. cbn [default id].
  destruct (truthy x); [|reflexivity].
  destruct (assoc b d) as [y|]; [discriminate | reflexivity].
Qed.

Lemma edit_from_plan_lacking (d : list (string * pyval)) (sid : session)
    (s : agent_state) :
  lacks "file_path" d || lacks "content" d = true ->
  CodeAgent.edit_from_plan agent (PDict d) sid s = (Ok tt, s).
Proof.
  intros H. unfold CodeAgent.edit_from_plan.
  now rewrite (bind_ok _ _ _ _ _ (get_both_lacking _ _ _ _ H)).
Qed.

Lemma skip_incomplete_entries (l : list pyval) (session_of : pyval -> session)
    (s : agent_state) :
  forallb entry_incomplete l = true ->
  for_each l (fun file_info =>
    both <- CodeAgent.get_both file_info "path" "content" ;;
    if both then
      path <- py_getitem file_info "path" ;;
      content <- py_getitem file_info "content" ;;
      CodeAgent._execute_file_edit agent path content (session_of path) ;;
      ret tt
    else ret tt) s = (Ok tt, s).
Proof.
  induction l as [|e l IH]; cbn [forallb for_each]; [reflexivity|].
  intros H. apply andb_true_iff in H as [He Hl].
  destruct e as [| | | | |d]; try discriminate. cbn [entry_incomplete] in He.
  erewrite bind_ok; [exact (IH Hl)|].
  now rewrite (bind_ok _ _ _ _ _ (get_both_lacking _ _ _ _ He)).
Qed.

Lemma edits_from_files_none (d : list (string * pyval))
    (session_of : pyval -> session) (s : agent_state) :
  match assoc "files" d with
  | None => true
  | Some (PList l) => forallb entry_incomplete l
  | Some _ => false
  end = true ->
  CodeAgent.edits_from_files agent (PDict d) session_of s = (Ok tt, s).
Proof.
  intros H. unfold CodeAgent.edits_from_files.
  erewrite bind_ok; [|reflexivity].
  assert (G : forall v, assoc "files" d = Some v ->
              @py_getitem agent_state (PDict d) "files" s = (Ok v, s)).
  { intros v Hv. unfold py_getitem. now rewrite Hv. }
  destruct (assoc "files" d) as [[| | | |l|]|]; try discriminate;
    [|reflexivity].
  cbn [default id truthy].
  destruct l as [|e l]; [reflexivity|].
  rewrite (bind_ok _ _ _ _ _ (G _ eq_refl)).
  erewrite bind_ok; [|reflexivity].
  now apply skip_incomplete_entries.
Qed.

End NoEdit.

(** C5: when the planning call of a unit (component, route, table or
    integration) answers a dictionary without [file_path] or without
    [content] (for a table or the integration: without [files], with an
    empty [files], or with entries that lack [path] or [content]), the
    planning call is the only invocation made for the unit: no file edit
    is issued. *)
Theorem no_edit_without_named_file (agent : codebase_agent)
    (implementation_context : pyval) (u : work_unit) (s : agent_state)
    (response : pyval) :
  agent (trace s) (plan_invocation implementation_context u) = Ok response ->
  names_no_edit u response = true ->
  implement_unit agent implementation_context u s
  = (Ok tt, AgentState (trace s ++ [plan_invocation implementation_context u]) (shown s))
  /\ calls_made (implement_unit agent implementation_context u) s
     = [plan_invocation implementation_context u]
  /\ is_edit (plan_invocation implementation_context u) = false.
Proof.
  intros Hplan Hnone.
  assert (E : implement_unit agent implementation_context u s
              = (Ok tt, AgentState
                          (trace s ++ [plan_invocation implementation_context u])
                          (shown s))).
  { destruct response as [| | | | |d]; try discriminate.
    destruct u as [c|r|t|]; cbn [implement_unit names_no_edit plan_invocation] in *.
    - unfold CodeAgent.implement_component.
      rewrite (bind_ok _ _ _ _ _ (invoke_ok agent _ _ _ Hplan)).
      now apply edit_from_plan_lacking.
    - unfold CodeAgent.implement_api_route.
      rewrite (bind_ok _ _ _ _ _ (invoke_ok agent _ _ _ Hplan)).
      now apply edit_from_plan_lacking.
    - unfold CodeAgent.implement_table.
      rewrite (bind_ok _ _ _ _ _ (invoke_ok agent _ _ _ Hplan)).
      now apply edits_from_files_none.
    - unfold CodeAgent._integrate_components.
      rewrite (bind_ok _ _ _ _ _ (invoke_ok agent _ _ _ Hplan)).
      now apply edits_from_files_none. }
  split; [exact E|]. split.
  - unfold calls_made. rewrite E. cbn [snd trace].
    now rewrite drop_app_length.
  - now destruct u.
Qed.

Lemma no_edit_without_named_file_witness :
  implement_unit pathy_agent PNone
    (UTable (SupabaseTable.Build "users" "create table users (id uuid primary key)"))
    fresh_state
  = (Ok tt,
     AgentState
       [plan_invocation PNone
          (UTable (SupabaseTable.Build "users"
                     "create table users (id uuid primary key)"))] []).
Proof.
  exact (proj1 (no_edit_without_named_file pathy_agent PNone
                  (UTable (SupabaseTable.Build "users"
                             "create table users (id uuid primary key)"))
                  fresh_state _ eq_refl eq_refl)).
Defined.

(** ** The order of the stages (C2, C9) *)

Section StageOrder.

Lemma in_stage_order_same (st : stage) (calls : list invocation) :
  Forall (stage_is st) calls -> in_stage_order calls.
Proof.
  intros F i j a b Ha Hb Hlt. exfalso.
  rewrite Forall_forall in F.
  assert (stage_of a = st) by (apply F; eapply list_elem_of_lookup_2; eauto).
  assert (stage_of b = st) by (apply F; eapply list_elem_of_lookup_2; eauto).
  rewrite H, H0 in Hlt. lia.
Qed.

Lemma in_stage_order_app (n : nat) (c1 c2 : list invocation) :
  Forall (fun c => (rank (stage_of c) <= n)%nat) c1 ->
  Forall (fun c => (n <= rank (stage_of c))%nat) c2 ->
  in_stage_order c1 -> in_stage_order c2 ->
  in_stage_order (c1 ++ c2).
Proof.
  intros F1 F2 O1 O2 i j a b Ha Hb Hlt.
  rewrite Forall_forall in F1, F2.
  destruct (Nat.lt_ge_cases i (length c1)) as [Hi|Hi];
    destruct (Nat.lt_ge_cases j (length c1)) as [Hj|Hj].
  - rewrite lookup_app_l in Ha, Hb by assumption. eauto.
  - lia.
  - rewrite lookup_app_l in Hb by assumption.
    rewrite lookup_app_r in Ha by assumption.
    assert (rank (stage_of b) <= n)%nat
      by (apply F1; eapply list_elem_of_lookup_2; eauto).
    assert (n <= rank (stage_of a))%nat
      by (apply F2; eapply list_elem_of_lookup_2; eauto).
    lia.
  - rewrite lookup_app_r in Ha, Hb by assumption.
    specialize (O2 _ _ _ _ Ha Hb Hlt). lia.
Qed.

End StageOrder.

Section Pipeline.

Variable agent : codebase_agent.
Variable spec : ProjectSpec.t.

Lemma emits_run {A} (P : invocation -> Prop) (m : M agent_state A) (s : agent_state) :
  emits P m ->
  exists r s' calls, m s = (r, s') /\ trace s' = (trace s ++ calls)%list /\ Forall P calls.
Proof.
  intros H. destruct (H s) as (calls & T & F).
  destruct (m s) as [r s'] eqn:E. now exists r, s', calls.
Qed.

Lemma analyze_codebase_run (s : agent_state) :
  exists r s', CodeAgent.analyze_codebase agent s = (r, s')
               /\ trace s' = (trace s ++ [analyze_call])%list.
Proof.
  unfold CodeAgent.analyze_codebase, try_except, bind, CodeAgent.invoke.
  destruct (agent (trace s) (Invoke Analyze S_analyze_codebase)); cbn; eauto.
Qed.

Lemma plan_run (analysis : pyval) (s : agent_state) :
  exists r s', CodeAgent._generate_implementation_plan agent spec analysis s = (r, s')
               /\ trace s' = (trace s ++ [plan_call analysis spec])%list.
Proof. unfold CodeAgent._generate_implementation_plan, CodeAgent.invoke. eauto. Qed.

Lemma components_emit (ctx : pyval) :
  emits (stage_is StComponent) (CodeAgent._implement_components agent spec ctx).
Proof.
  apply emits_for_each. intros c. apply emits_bind.
  - now apply emits_invoke.
  - intros plan. now apply emits_edit_from_plan.
Qed.

Lemma api_routes_emit (ctx : pyval) :
  emits (stage_is StRoute) (CodeAgent._implement_api_routes agent spec ctx).
Proof.
  apply emits_for_each. intros c. apply emits_bind.
  - now apply emits_invoke.
  - intros plan. now apply emits_edit_from_plan.
Qed.

Lemma database_emit (ctx : pyval) :
  emits (stage_is StTable) (CodeAgent._implement_database agent spec ctx).
Proof.
  apply emits_for_each. intros c. apply emits_bind.
  - now apply emits_invoke.
  - intros plan. now apply emits_edits_from_files.
Qed.

Lemma integrate_run (ctx : pyval) (s : agent_state) :
  exists r s' edits,
    CodeAgent._integrate_components agent ctx s = (r, s')
    /\ trace s' = (trace s ++ Invoke (PlanIntegration ctx) S_plan_integration :: edits)%list
    /\ Forall (stage_is StIntegration) edits.
Proof.
  unfold CodeAgent._integrate_components, bind.
  destruct (CodeAgent.invoke agent (Invoke (PlanIntegration ctx) S_plan_integration) s)
    as [[plan|e] s1] eqn:E;
    assert (T1 : trace s1 = (trace s ++ [Invoke (PlanIntegration ctx) S_plan_integration])%list)
      by (unfold CodeAgent.invoke in E; now inversion E).
  - destruct (emits_run (stage_is StIntegration)
                (CodeAgent.edits_from_files agent plan S_edit_integration) s1)
      as (r & s' & edits & E' & T' & F'); [now apply emits_edits_from_files|].
    exists r, s', edits. rewrite E', T', T1, <- app_assoc. auto.
  - exists (Raise e), s1, []. auto.
Qed.

(** What re-raising after a console line does to a run. *)
Lemma reraise_run {A} (m : M agent_state A) (msg : exn -> console_event)
    (s : agent_state) (r : outcome A) (s' : agent_state) :
  m s = (r, s') ->
  exists s'', try_except m (fun e => CodeAgent.console_print (msg e) ;; raise e) s
              = (r, s'')
              /\ trace s'' = trace s'.
Proof.
  intros E. unfold try_except. rewrite E. destruct r; cbn; eauto.
Qed.

Ltac trace_eq :=
  cbn [trace] in *;
  repeat match goal with
         | H : trace ?s = _ |- context [trace ?s] => rewrite H
         end;
  rewrite <- ?app_assoc; cbn [app]; rewrite ?app_nil_r; reflexivity.

Ltac shape p c r t i :=
  exists p, c, r, t, i;
  repeat split; try discriminate;
  try solve [ auto
            | repeat first [ assumption
                           | apply List.Forall_nil
                           | apply List.Forall_cons; [reflexivity|] ] ];
  eauto.

Lemma implement_features_run (s : agent_state) :
  exists r s' calls,
    CodeAgent.implement_features agent spec s = (r, s')
    /\ trace s' = (trace s ++ calls)%list
    /\ pipeline_shape spec (is_ok r) calls.
Proof.
  unfold CodeAgent.implement_features.
  match goal with
  | |- context [try_except ?body ?h] =>
      enough (Hbody : exists r s' calls,
                 body s = (r, s') /\ trace s' = (trace s ++ calls)%list
                 /\ pipeline_shape spec (is_ok r) calls)
  end.
  { destruct Hbody as (r & s' & calls & E & T & Sh).
    destruct (reraise_run _
                (fun e => Print ("[red]Error implementing features: "
                                   ++ exn_str e ++ "[/red]")) _ _ _ E)
      as (s'' & E' & T').
    exists r, s'', calls. rewrite E', T'. auto. }
  destruct (analyze_codebase_run s) as ([analysis|e] & s0 & E0 & T0).
  2:{ rewrite (bind_raise _ _ _ _ _ E0). exists (Raise e), s0, [analyze_call].
      split; [reflexivity|]. split; [trace_eq|].
      shape (@nil invocation) (@nil invocation)
        (@nil invocation) (@nil invocation) (@nil invocation). }
  rewrite (bind_ok _ _ _ _ _ E0).
  destruct (plan_run analysis s0) as ([ctx|e] & s1 & E1 & T1).
  2:{ rewrite (bind_raise _ _ _ _ _ E1).
      exists (Raise e), s1, [analyze_call; plan_call analysis spec].
      split; [reflexivity|]. split; [trace_eq|].
      shape [plan_call analysis spec] (@nil invocation)
        (@nil invocation) (@nil invocation) (@nil invocation). }
  rewrite (bind_ok _ _ _ _ _ E1).
  erewrite bind_ok; [|reflexivity]. erewrite bind_ok; [|reflexivity].
  match goal with
  | |- context [bind _ _ ?st] =>
      destruct (emits_run _ _ st (components_emit ctx))
        as ([[]|e] & s2 & c & E2 & T2 & F2)
  end.
  2:{ rewrite (bind_raise _ _ _ _ _ E2).
      exists (Raise e), s2, (analyze_call :: plan_call analysis spec :: c).
      split; [reflexivity|]. split; [trace_eq|].
      shape [plan_call analysis spec] c
        (@nil invocation) (@nil invocation) (@nil invocation).
      cbn. now rewrite !app_nil_r. }
  rewrite (bind_ok _ _ _ _ _ E2).
  destruct (emits_run _ _ s2 (api_routes_emit ctx))
    as ([[]|e] & s3 & r & E3 & T3 & F3).
  2:{ rewrite (bind_raise _ _ _ _ _ E3).
      exists (Raise e), s3, (analyze_call :: plan_call analysis spec :: c ++ r)%list.
      split; [reflexivity|]. split; [trace_eq|].
      shape [plan_call analysis spec] c r (@nil invocation) (@nil invocation).
      cbn. now rewrite !app_nil_r. }
  rewrite (bind_ok _ _ _ _ _ E3).
  destruct (emits_run _ _ s3 (database_emit ctx))
    as ([[]|e] & s4 & t & E4 & T4 & F4).
  2:{ rewrite (bind_raise _ _ _ _ _ E4).
      exists (Raise e), s4,
        (analyze_call :: plan_call analysis spec :: c ++ r ++ t)%list.
      split; [reflexivity|]. split; [trace_eq|].
      shape [plan_call analysis spec] c r t (@nil invocation).
      cbn. now rewrite !app_nil_r. }
  rewrite (bind_ok _ _ _ _ _ E4).
  destruct (integrate_run ctx s4) as ([[]|e] & s5 & edits & E5 & T5 & F5).
  2:{ rewrite (bind_raise _ _ _ _ _ E5).
      exists (Raise e), s5,
        (analyze_call :: plan_call analysis spec :: c ++ r ++ t
           ++ Invoke (PlanIntegration ctx) S_plan_integration :: edits)%list.
      split; [reflexivity|]. split; [trace_eq|].
      shape [plan_call analysis spec] c r t
        (Invoke (PlanIntegration ctx) S_plan_integration :: edits). }
  rewrite (bind_ok _ _ _ _ _ E5).
  erewrite bind_ok; [|reflexivity].
  eexists _, _,
    (analyze_call :: plan_call analysis spec :: c ++ r ++ t
       ++ Invoke (PlanIntegration ctx) S_plan_integration :: edits)%list.
  split; [reflexivity|]. split; [trace_eq|].
  shape [plan_call analysis spec] c r t
    (Invoke (PlanIntegration ctx) S_plan_integration :: edits).
Qed.

Lemma reraise_ok_inv {A} (m : M agent_state A) (msg : exn -> console_event)
    (s s' : agent_state) (a : A) :
  try_except m (fun e => CodeAgent.console_print (msg e) ;; raise e) s = (Ok a, s') ->
  m s = (Ok a, s').
Proof.
  unfold try_except. destruct (m s) as [[x|e] s1]; [trivial | discriminate].
Qed.

Lemma pipeline_in_stage_order (ok : bool) (calls : list invocation) :
  pipeline_shape spec ok calls -> in_stage_order calls.
Proof.
  intros (p & c & r & t & i & -> & Fp & Fc & Fr & Ft & Fi & _).
  assert (W : forall st (P : nat -> Prop) l,
             P (rank st) ->
             Forall (stage_is st) l -> Forall (fun x => P (rank (stage_of x))) l).
  { intros st P l HP F. eapply Forall_impl; [exact F|].
    intros x Hx. unfold stage_is in Hx. now rewrite Hx. }
  change (analyze_call :: p ++ c ++ r ++ t ++ i)%list
    with ([analyze_call] ++ p ++ c ++ r ++ t ++ i)%list.
  apply (in_stage_order_app 0).
  - repeat constructor.
  - rewrite !Forall_app. repeat split; apply Forall_forall; intros; lia.
  - eapply in_stage_order_same with (st := StAnalyze). now repeat constructor.
  - apply (in_stage_order_app 1);
      [ apply (W StPlan (fun k => (k <= 1)%nat)); [cbn; lia | exact Fp]
      | | now apply in_stage_order_same with (st := StPlan) | ].
    { rewrite !Forall_app. repeat split.
      - apply (W StComponent (fun k => (1 <= k)%nat)); [cbn; lia | exact Fc].
      - apply (W StRoute (fun k => (1 <= k)%nat)); [cbn; lia | exact Fr].
      - apply (W StTable (fun k => (1 <= k)%nat)); [cbn; lia | exact Ft].
      - apply (W StIntegration (fun k => (1 <= k)%nat)); [cbn; lia | exact Fi]. }
    apply (in_stage_order_app 2);
      [ apply (W StComponent (fun k => (k <= 2)%nat)); [cbn; lia | exact Fc]
      | | now apply in_stage_order_same with (st := StComponent) | ].
    { rewrite !Forall_app. repeat split.
      - apply (W StRoute (fun k => (2 <= k)%nat)); [cbn; lia | exact Fr].
      - apply (W StTable (fun k => (2 <= k)%nat)); [cbn; lia | exact Ft].
      - apply (W StIntegration (fun k => (2 <= k)%nat)); [cbn; lia | exact Fi]. }
    apply (in_stage_order_app 3);
      [ apply (W StRoute (fun k => (k <= 3)%nat)); [cbn; lia | exact Fr]
      | | now apply in_stage_order_same with (st := StRoute) | ].
    { rewrite !Forall_app. repeat split.
      - apply (W StTable (fun k => (3 <= k)%nat)); [cbn; lia | exact Ft].
      - apply (W StIntegration (fun k => (3 <= k)%nat)); [cbn; lia | exact Fi]. }
    apply (in_stage_order_app 4);
      [ apply (W StTable (fun k => (k <= 4)%nat)); [cbn; lia | exact Ft]
      | apply (W StIntegration (fun k => (4 <= k)%nat)); [cbn; lia | exact Fi]
      | now apply in_stage_order_same with (st := StTable)
      | now apply in_stage_order_same with (st := StIntegration) ].
Qed.

End Pipeline.

(** C2: in every run of [implement_features], whether it succeeds or is
    cut short by an exception, a call of an earlier stage comes before
    every call of a later stage, the stages being analyze, plan,
    components, routes, tables, integration; a run that succeeds starts
    with the analyze call, then the plan call, and makes the integration
    call after all component, route and table calls. *)
Theorem implement_features_stage_order (agent : codebase_agent) (spec : ProjectSpec.t)
    (s : agent_state) :
  exists calls : list invocation,
    trace (snd (CodeAgent.implement_features agent spec s)) = (trace s ++ calls)%list
    /\ in_stage_order calls
    /\ match fst (CodeAgent.implement_features agent spec s) with
       | Ok _ =>
           exists analysis c r t implementation_context edits,
             calls = (analyze_call :: plan_call analysis spec :: c ++ r ++ t
                        ++ Invoke (PlanIntegration implementation_context)
                                  S_plan_integration :: edits)%list
             /\ Forall (stage_is StComponent) c
             /\ Forall (stage_is StRoute) r
             /\ Forall (stage_is StTable) t
             /\ Forall (stage_is StIntegration) edits
       | Raise _ => True
       end.
Proof.
  destruct (implement_features_run agent spec s) as (r & s' & calls & E & T & Sh).
  exists calls. rewrite E. cbn [fst snd]. split; [exact T|]. split.
  - eapply pipeline_in_stage_order; eauto.
  - destruct r as [msg|e]; [|exact I].
    destruct Sh as (p & c & rt & t & i & -> & Fp & Fc & Fr & Ft & Fi & Hok).
    destruct (Hok eq_refl) as ((analysis & ->) & (ctx & edits & ->)).
    exists analysis, c, rt, t, ctx, edits. repeat split; auto.
    now inversion Fi.
Qed.

(** C9: in every successful run of [transform_template] the trace starts
    with two analysis calls, the one of [transform_template] and the one of
    the nested [implement_features], followed by the plan call; no later
    call is an analysis or a plan call. *)
Theorem transform_template_analyzes_twice (agent : codebase_agent)
    (spec : ProjectSpec.t) (s s' : agent_state) (result : string) :
  CodeAgent.transform_template agent spec s = (Ok result, s') ->
  exists (analysis : pyval) (rest : list invocation),
    trace s' = (trace s ++ analyze_call :: analyze_call
                  :: plan_call analysis spec :: rest)%list
    /\ Forall (fun c => (2 <= rank (stage_of c))%nat) rest.
Proof.
  intros Hrun. unfold CodeAgent.transform_template in Hrun.
  apply reraise_ok_inv in Hrun.
  apply bind_inv_ok in Hrun as (analysis0 & s0 & E0 & Hrun).
  destruct (analyze_codebase_run agent s) as (r0 & s0' & E0' & T0).
  rewrite E0 in E0'. injection E0' as <- <-.
  apply bind_inv_ok in Hrun as ([] & s1 & E1 & Hrun).
  apply bind_inv_ok in Hrun as ([] & s2 & E2 & Hrun).
  apply bind_inv_ok in Hrun as (res & s3 & E3 & Hrun).
  apply bind_inv_ok in Hrun as ([] & s4 & E4 & Hrun).
  injection E1 as <-. injection E2 as <-. injection E4 as <-.
  injection Hrun as <- <-.
  match type of E3 with
  | CodeAgent.implement_features _ _ ?st = _ =>
      destruct (implement_features_run agent spec st)
        as (r & s3' & calls & E3' & T3 & Sh)
  end.
  rewrite E3 in E3'. injection E3' as <- <-.
  destruct Sh as (p & c & rt & t & i & -> & Fp & Fc & Fr & Ft & Fi & Hok).
  destruct (Hok eq_refl) as ((analysis & ->) & _).
  exists analysis, (c ++ rt ++ t ++ i)%list. split.
  - cbn [trace] in *. rewrite T3, T0, <- app_assoc. reflexivity.
  - rewrite !Forall_app. repeat split;
      (eapply Forall_impl; [eassumption|]);
      intros x Hx; unfold stage_is in Hx; rewrite Hx; cbn; lia.
Qed.

Lemma transform_template_analyzes_twice_witness :
  exists (analysis : pyval) (rest : list invocation),
    trace (snd (CodeAgent.transform_template silent_agent sample_spec fresh_state))
    = ([] ++ analyze_call :: analyze_call :: plan_call analysis sample_spec :: rest)%list
    /\ Forall (fun c => (2 <= rank (stage_of c))%nat) rest.
Proof.
  exact (transform_template_analyzes_twice silent_agent sample_spec fresh_state
           (snd (CodeAgent.transform_template silent_agent sample_spec fresh_state))
           "Features implemented successfully" eq_refl).
Defined.

(** ** The attempt counter and the end of the loop (C4) *)

Section Input.

Variable ai : model.

Lemma keeps_ret {A} (a : A) : keeps_input (ret a).
Proof. intros w. cbn. lia. Qed.

Lemma keeps_raise {A} (e : exn) : keeps_input (@raise _ A e).
Proof. intros w. cbn. lia. Qed.

Lemma keeps_bind {A B} (m : M world A) (k : A -> M world B) :
  keeps_input m -> (forall a, keeps_input (k a)) -> keeps_input (bind m k).
Proof.
  intros Hm Hk w. specialize (Hm w). unfold bind.
  destruct (m w) as [[a|e] w1]; cbn in *; [|exact Hm].
  specialize (Hk a w1). lia.
Qed.

Lemma keeps_try_except {A} (m : M world A) (h : exn -> M world A) :
  keeps_input m -> (forall e, keeps_input (h e)) -> keeps_input (try_except m h).
Proof.
  intros Hm Hh w. specialize (Hm w). unfold try_except.
  destruct (m w) as [[a|e] w1]; cbn in *; [exact Hm|].
  specialize (Hh e w1). lia.
Qed.

Lemma keeps_emit (e : console_event) : keeps_input (modify (emit e)).
Proof. intros w. cbn. lia. Qed.

Lemma keeps_ask_model {A} (r : ai_request) (answer : list ai_request -> outcome A) :
  keeps_input (ask_model r answer).
Proof. intros w. cbn. lia. Qed.

Lemma keeps_ask_until (valid : string -> bool) : keeps_input (ask_until valid).
Proof.
  intros w. unfold ask_until.
  destruct (read_valid valid (stdin w)) as [[l r]|] eqn:E; cbn; [|lia].
  apply read_valid_shorter in E. lia.
Qed.

Lemma keeps_Prompt_ask (prompt : string) (choices : option (list string)) :
  keeps_input (Prompt_ask prompt choices).
Proof. destruct choices; apply keeps_ask_until. Qed.

Lemma keeps_Confirm_ask (prompt : string) : keeps_input (Confirm_ask prompt).
Proof.
  apply keeps_bind; [apply keeps_ask_until | intros; apply keeps_ret].
Qed.

Lemma keeps_py_int (s : string) : keeps_input (py_int s).
Proof. unfold py_int. destruct (PyStr.to_int s); [apply keeps_ret | apply keeps_raise]. Qed.

Lemma keeps_py_pop {A} (l : list A) (i : Z) : keeps_input (py_pop l i).
Proof.
  unfold py_pop. cbv zeta.
  repeat match goal with
         | |- keeps_input (if ?b then _ else _) => destruct b
         end; first [apply keeps_ret | apply keeps_raise].
Qed.

Lemma keeps_validate_feature (feature : string) :
  keeps_input (MasterAgent.validate_feature ai feature).
Proof.
  apply keeps_bind; [apply keeps_ask_model | intros; apply keeps_ret].
Qed.

Create HintDb keeps.
Hint Resolve keeps_ret keeps_raise keeps_emit keeps_ask_model keeps_ask_until
  keeps_Prompt_ask keeps_Confirm_ask keeps_py_int keeps_py_pop
  keeps_validate_feature : keeps.

Ltac keeps :=
  repeat first
    [ apply keeps_bind; [|intros]
    | apply keeps_try_except; [|intros]
    | match goal with
      | |- keeps_input (if ?b then _ else _) => destruct b
      end
    | solve [unfold console_print, status_start, status_stop; auto with keeps] ].

Lemma keeps_add_feature (fs : list string) :
  keeps_input (MasterAgent.add_feature ai fs).
Proof. unfold MasterAgent.add_feature. keeps. Qed.

Lemma keeps_remove_feature (fs : list string) :
  keeps_input (MasterAgent.remove_feature fs).
Proof. unfold MasterAgent.remove_feature. keeps. Qed.

Lemma end_of_body_eq (fs : list string) (v : MasterAgent.loop_vars) (w : world) :
  MasterAgent.end_of_body fs v w
  = (Ok (MasterAgent.Fallthrough, MasterAgent.Vars fs (MasterAgent.attempts v + 1)),
     printed (listing updated_title fs) w).
Proof.
  unfold MasterAgent.end_of_body.
  now rewrite (bind_ok _ _ _ _ _ (show_features_eq _ _ _)).
Qed.

(** How a run of the body that does not raise ends: it has read at least
    one line, and either it reached [attempts += 1], or it left the
    variables alone, and it took [continue] only on an empty list. *)
Lemma loop_body_ok (v v' : MasterAgent.loop_vars) (w w' : world)
    (fl : MasterAgent.flow) :
  MasterAgent.loop_body ai v w = (Ok (fl, v'), w') ->
  (length (stdin w') < length (stdin w))%nat
  /\ match fl with
     | MasterAgent.Fallthrough =>
         MasterAgent.attempts v' = MasterAgent.attempts v + 1
     | MasterAgent.Continue => v' = v /\ MasterAgent.features v = []
     | MasterAgent.Break => v' = v
     end.
Proof.
  destruct (read_valid (one_of ["y"; "n"]) (stdin w)) as [[l r1]|] eqn:Hy.
  2:{ unfold MasterAgent.loop_body.
      rewrite (bind_ok _ _ _ _ _ (show_features_eq _ _ _)).
      erewrite bind_raise; [discriminate|].
      unfold Confirm_ask. apply bind_raise. unfold ask_until.
      cbn [stdin printed]. now rewrite Hy. }
  pose proof (read_valid_shorter _ _ _ _ Hy) as L1.
  destruct (String.eqb l "y") eqn:El.
  2:{ unfold MasterAgent.loop_body.
      rewrite (bind_ok _ _ _ _ _ (show_features_eq _ _ _)).
      erewrite bind_ok; [|apply Confirm_ask_ok; exact Hy].
      rewrite El. cbn. intros [= <- <- <-]. cbn. auto. }
  apply String.eqb_eq in El. subst l.
  destruct (read_valid (one_of ["1"; "2"; "3"]) r1) as [[choice r2]|] eqn:Hc.
  2:{ unfold MasterAgent.loop_body.
      rewrite (bind_ok _ _ _ _ _ (show_features_eq _ _ _)).
      erewrite bind_ok; [|apply Confirm_ask_ok; exact Hy].
      cbn [String.eqb Ascii.eqb Bool.eqb negb].
      rewrite !(bind_ok _ _ _ _ _ (console_print_eq _ _)).
      erewrite bind_raise; [discriminate|].
      unfold Prompt_ask, ask_until. cbn [stdin printed set_stdin].
      now rewrite Hc. }
  pose proof (read_valid_shorter _ _ _ _ Hc) as L2.
  rewrite (loop_body_at_menu ai v w r1 r2 choice Hy Hc).
  destruct (String.eqb choice "1").
  { intros H. apply bind_inv_ok in H as (fs & w1 & Eadd & Hend).
    rewrite end_of_body_eq in Hend. injection Hend as <- <- <-.
    pose proof (keeps_add_feature (MasterAgent.features v)
                  (at_menu (MasterAgent.features v) r2 w)) as K.
    rewrite Eadd in K. cbn in *. split; [lia | reflexivity]. }
  destruct (String.eqb choice "2").
  2:{ cbn. intros [= <- <- <-]. cbn. split; [lia | reflexivity]. }
  destruct (MasterAgent.features v) as [|f fs0] eqn:Efs.
  { rewrite (bind_ok _ _ _ _ _ (console_print_eq _ _)).
    cbn. intros [= <- <- <-]. cbn. split; [lia | auto]. }
  intros H. apply bind_inv_ok in H as (fs & w1 & Erm & Hend).
  rewrite end_of_body_eq in Hend. injection Hend as <- <- <-.
  pose proof (keeps_remove_feature (f :: fs0) (at_menu (f :: fs0) r2 w)) as K.
  rewrite Erm in K. cbn in *. split; [lia | reflexivity].
Qed.

(** The bound on the lines left is enough: the loop always ends. *)
Lemma while_loop_total (max_attempts : Z) (fuel : nat) :
  forall (v : MasterAgent.loop_vars) (w : world),
    (length (stdin w) < fuel)%nat ->
    is_Some (MasterAgent.while_loop ai max_attempts fuel v w).
Proof.
  induction fuel as [|fuel IH]; intros v w Hlen; [lia|].
  cbn [MasterAgent.while_loop].
  destruct (MasterAgent.attempts v <? max_attempts); [|eauto].
  destruct (MasterAgent.loop_body ai v w) as [[[fl v']|e] w'] eqn:E; [|eauto].
  pose proof (loop_body_ok _ _ _ _ _ E) as [Hshort _].
  destruct (IH v' w' ltac:(lia)) as [[its r] Hrec].
  destruct fl; rewrite ?Hrec; eauto.
Qed.

Lemma counted_cons (it : MasterAgent.iteration) (its : list MasterAgent.iteration) :
  length (counted (it :: its))
  = ((if is_continue it then 0 else 1) + length (counted its))%nat.
Proof.
  unfold counted. rewrite filter_cons.
  destruct (is_continue it); cbn; reflexivity.
Qed.

Lemma while_loop_inv (max_attempts : Z) (fuel : nat) :
  forall (v : MasterAgent.loop_vars) (w : world) its r w',
    MasterAgent.while_loop ai max_attempts fuel v w = Some (its, (r, w')) ->
    Forall (fun it => MasterAgent.attempts v
                      <= MasterAgent.attempts (MasterAgent.entry it)
                      < max_attempts) its
    /\ Z.of_nat (length (counted its))
       <= Z.max 0 (max_attempts - MasterAgent.attempts v)
    /\ Forall (fun it => is_continue it = true ->
                         MasterAgent.features (MasterAgent.entry it) = []) its
    /\ match r with
       | Ok v' => MasterAgent.attempts v <= MasterAgent.attempts v'
                  <= Z.max (MasterAgent.attempts v) max_attempts
       | Raise _ => True
       end.
Proof.
  induction fuel as [|fuel IH]; intros v w its r w';
    cbn [MasterAgent.while_loop];
    destruct (Z.ltb_spec (MasterAgent.attempts v) max_attempts) as [Hlt|Hge];
    try discriminate;
    try (intros [= <- <- <-]; repeat split; auto; cbn; lia).
  destruct (MasterAgent.loop_body ai v w) as [[[fl v1]|e] w1] eqn:E.
  2:{ intros [= <- <- <-]. repeat split; auto.
      - repeat constructor; cbn; lia.
      - rewrite counted_cons. cbn. lia.
      - repeat constructor. discriminate. }
  pose proof (loop_body_ok _ _ _ _ _ E) as [_ Hfl].
  destruct fl.
  - destruct (MasterAgent.while_loop ai max_attempts fuel v1 w1)
      as [[its1 [r1 w2]]|] eqn:Erec; [|discriminate].
    intros [= <- <- <-].
    destruct (IH _ _ _ _ _ Erec) as (F & C & G & R). rewrite Hfl in *.
    repeat split.
    + constructor; [cbn; lia|]. eapply Forall_impl; [exact F|]. cbn. lia.
    + rewrite counted_cons. cbn [is_continue MasterAgent.ended]. lia.
    + constructor; [discriminate | exact G].
    + destruct r1; [lia | exact I].
  - intros [= <- <- <-]. subst v1. repeat split; auto.
    + repeat constructor; cbn; lia.
    + rewrite counted_cons. cbn. lia.
    + repeat constructor. discriminate.
    + lia.
    + lia.
  - destruct Hfl as [-> Hempty].
    destruct (MasterAgent.while_loop ai max_attempts fuel v w1)
      as [[its1 [r1 w2]]|] eqn:Erec; [|discriminate].
    intros [= <- <- <-].
    destruct (IH _ _ _ _ _ Erec) as (F & C & G & R).
    repeat split.
    + constructor; [cbn; lia | exact F].
    + rewrite counted_cons. cbn [is_continue MasterAgent.ended]. lia.
    + constructor; [intros _; exact Hempty | exact G].
    + exact R.
Qed.

End Input.

(** C4, as stated, fails: with [max_attempts = 1] and no features, an
    operator who chooses to remove three times makes the body run four
    times, more than [max_attempts + 1]; those iterations end in
    [continue] and leave the counter at 0. *)
Lemma empty_removes_outrun_the_bound :
  option_map (fun run => map (fun it => (MasterAgent.attempts (MasterAgent.entry it),
                                         MasterAgent.ended it)) (fst run))
    (MasterAgent.verify_with_user_loop failing_model (Intent.Build []) 1
       (quiet_world ["y"; "2"; "y"; "2"; "y"; "2"; "n"]))
  = Some [(0, Some MasterAgent.Continue); (0, Some MasterAgent.Continue);
          (0, Some MasterAgent.Continue); (0, Some MasterAgent.Break)]
  /\ ~ (Z.of_nat 4 <= 1 + 1).
Proof. split; [vm_compute; reflexivity | lia]. Qed.

(** C4, amended: the loop always ends; the attempt counter is below
    [max_attempts] whenever the body is entered and never exceeds it (it
    stays 0 when [max_attempts] is not positive); the iterations other
    than those that end in [continue] number at most [max_attempts]; and
    an iteration ends in [continue], uncounted, only when the feature
    list is empty. *)
Theorem attempts_bounded_and_loop_ends (ai : model) (intent : Intent.t)
    (max_attempts : Z) (w : world) :
  exists its r w',
    MasterAgent.while_loop ai max_attempts (S (length (stdin w)))
      (MasterAgent.Vars (Intent.features intent) 0) w
    = Some (its, (r, w'))
    /\ MasterAgent.verify_with_user_loop ai intent max_attempts w
       = Some (its, (match r with
                     | Ok v => Ok (Intent.Build (MasterAgent.features v))
                     | Raise e => Raise e
                     end, w'))
    /\ Forall (fun it => 0 <= MasterAgent.attempts (MasterAgent.entry it)
                         < max_attempts) its
    /\ match r with
       | Ok v => 0 <= MasterAgent.attempts v <= Z.max 0 max_attempts
       | Raise _ => True
       end
    /\ Z.of_nat (length (counted its)) <= Z.max 0 max_attempts
    /\ Forall (fun it => is_continue it = true ->
                         MasterAgent.features (MasterAgent.entry it) = []) its.
Proof.
  destruct (while_loop_total ai max_attempts (S (length (stdin w)))
              (MasterAgent.Vars (Intent.features intent) 0) w ltac:(lia))
    as [[its [r w']] E].
  exists its, r, w'. split; [exact E|].
  destruct (while_loop_inv ai _ _ _ _ _ _ _ E) as (F & C & G & R).
  cbn [MasterAgent.attempts] in *. rewrite Z.sub_0_r in C.
  repeat split; auto.
  unfold MasterAgent.verify_with_user_loop. rewrite E. now destruct r.
Qed.

(** * Further properties *)

(** ** The normalised project name *)

Section Normalised.

Lemma underscored_lower_plain (c : ascii) :
  Ascii.eqb (underscored_lower c) " " = false
  /\ is_capital (underscored_lower c) = false.
Proof. destruct c as [[] [] [] [] [] [] [] []]; split; reflexivity. Qed.

Lemma lower_ascii_idem (c : ascii) :
  PyStr.lower_ascii (PyStr.lower_ascii c) = PyStr.lower_ascii c.
Proof. destruct c as [[] [] [] [] [] [] [] []]; reflexivity. Qed.

Lemma lower_idem (s : string) : PyStr.lower (PyStr.lower s) = PyStr.lower s.
Proof.
  induction s as [|c r IH]; cbn [PyStr.lower]; [reflexivity|].
  now rewrite lower_ascii_idem, IH.
Qed.

Lemma lower_replace_space (s : string) :
  PyStr.replace " " "_" (PyStr.lower (PyStr.replace " " "_" s))
  = PyStr.replace " " "_" (PyStr.lower s).
Proof.
  induction s as [|c r IH]; [reflexivity|].
  cbn [PyStr.lower PyStr.replace]. rewrite lower_ascii_space.
  destruct (Ascii.eqb c " ") eqn:E.
  - change ("_" ++ PyStr.replace " " "_" r)
      with (String "_" (PyStr.replace " " "_" r)).
    cbn [PyStr.lower PyStr.replace]. now rewrite IH.
  - cbn [PyStr.lower PyStr.replace]. now rewrite lower_ascii_space, E, IH.
Qed.

End Normalised.

(** X1: the normalised project name that goes into the file name holds no
    space and no capital ASCII letter, whatever the project name. *)
Theorem normalised_name_is_plain (name : string) (n : nat) (c : ascii) :
  String.get n (PyStr.replace " " "_" (PyStr.lower name)) = Some c ->
  c <> " "%char /\ is_capital c = false.
Proof.
  rewrite normalised_get. destruct (String.get n name) as [c0|]; [|discriminate].
  intros [= <-]. destruct (underscored_lower_plain c0) as [Hs Hc].
  split; [|exact Hc]. intros E. rewrite E in Hs. discriminate.
Qed.

Lemma normalised_name_is_plain_witness :
  String.get 2 (PyStr.replace " " "_" (PyStr.lower "My App")) = Some "_"%char
  /\ "_"%char <> " "%char /\ is_capital "_" = false.
Proof.
  split; [reflexivity|].
  exact (normalised_name_is_plain "My App" 2 "_" eq_refl).
Defined.

(** X2: project names that differ only in the case of their letters, or in
    spaces against underscores, get the same spec file. *)
Theorem spec_file_ignores_case_and_spaces (name : string) :
  spec_file (PyStr.lower name) = spec_file name
  /\ spec_file (PyStr.replace " " "_" name) = spec_file name.
Proof.
  unfold spec_file. split.
  - now rewrite lower_idem.
  - now rewrite lower_replace_space.
Qed.

(** ** [understand_intent] and [create_spec] *)

(** X3: [understand_intent] returns what the first choice of the
    completion parsed to; a completion without choices fails like any other
    error, as a [ValueError] that wraps the index error. Either way the
    request is logged once. *)
Theorem understand_intent_first_choice (ai : model) (user_input : string) (w : world) :
  match chat_parse ai (ai_log w) user_input with
  | Ok (parsed :: _) =>
      fst (MasterAgent.understand_intent ai user_input w) = Ok parsed
  | Ok [] =>
      fst (MasterAgent.understand_intent ai user_input w)
      = Raise (ValueError "Failed to understand intent: list index out of range")
  | Raise e =>
      fst (MasterAgent.understand_intent ai user_input w)
      = Raise (ValueError ("Failed to understand intent: " ++ exn_str e))
  end
  /\ ai_log (snd (MasterAgent.understand_intent ai user_input w))
     = (ai_log w ++ [ParseIntent user_input])%list.
Proof.
  unfold MasterAgent.understand_intent, try_except, bind, ask_model.
  destruct (chat_parse ai (ai_log w) user_input) as [[|parsed rest]|e];
    cbn; auto.
Qed.

(** X4: whatever goes wrong inside them (the model call, an empty
    completion, [makedirs], [open]), [understand_intent] and [create_spec]
    raise nothing but a [ValueError] that starts with the stage's
    message. *)
Theorem master_methods_raise_only_ValueError (ai : model) (user_input : string)
    (intent : Intent.t) (w : world) :
  match fst (MasterAgent.understand_intent ai user_input w) with
  | Ok _ => True
  | Raise e => exists cause, e = ValueError ("Failed to understand intent: " ++ cause)
  end
  /\ match fst (MasterAgent.create_spec ai intent w) with
     | Ok _ => True
     | Raise e => exists cause, e = ValueError ("Failed to create specification: " ++ cause)
     end.
Proof.
  split.
  - unfold MasterAgent.understand_intent, try_except.
    match goal with |- context [(bind ?m ?k) w] => destruct (bind m k w) as [[a|e] w'] end;
      cbn; eauto.
  - unfold MasterAgent.create_spec, try_except.
    match goal with |- context [(bind ?m ?k) w] => destruct (bind m k w) as [[a|e] w'] end;
      cbn; eauto.
Qed.

Section SpecPath.

Lemma has_sep_app (a b : string) : has_sep (a ++ b) = has_sep a || has_sep b.
Proof.
  induction a as [|c r IH]; [reflexivity|].
  change (String c r ++ b) with (String c (r ++ b)).
  cbn [has_sep]. now rewrite IH, orb_assoc.
Qed.

Lemma lower_ascii_sep (c : ascii) :
  Ascii.eqb (PyStr.lower_ascii c) "/" = Ascii.eqb c "/".
Proof. destruct c as [[] [] [] [] [] [] [] []]; reflexivity. Qed.

Lemma has_sep_normalised (name : string) :
  has_sep (PyStr.replace " " "_" (PyStr.lower name)) = has_sep name.
Proof.
  induction name as [|c r IH]; [reflexivity|].
  cbn [PyStr.lower PyStr.replace]. rewrite lower_ascii_space.
  destruct (Ascii.eqb c " ") eqn:E.
  - apply Ascii.eqb_eq in E. subst c.
    change ("_" ++ PyStr.replace " " "_" (PyStr.lower r))
      with (String "_" (PyStr.replace " " "_" (PyStr.lower r))).
    cbn [has_sep]. now rewrite IH.
  - cbn [has_sep]. now rewrite lower_ascii_sep, IH.
Qed.

Lemma head_of_no_sep (s : string) : has_sep s = false -> head_of s = "".
Proof. destruct s; cbn [head_of]; [reflexivity|]. now intros ->. Qed.

Lemma no_sep_not_absolute (s : string) :
  has_sep s = false -> PyStr.startswith "/" s = false.
Proof.
  destruct s as [|c r]; [reflexivity|]. rewrite startswith_slash_cons.
  cbn [has_sep]. intros H. apply orb_false_iff in H as [H _].
  now rewrite Ascii.eqb_sym.
Qed.

(** The path of the spec file of a name without a slash, and its parent. *)
Lemma spec_file_plain (name : string) :
  has_sep name = false ->
  exists x, spec_file name = String "s" (String "p" (String "e" (String "c"
              (String "s" (String "/" x)))))
            /\ has_sep x = false.
Proof.
  intros H. exists (PyStr.replace " " "_" (PyStr.lower name) ++ "_spec.json").
  split.
  - unfold spec_file, OsPath.join.
    rewrite normalised_startswith_slash by reflexivity.
    now rewrite (no_sep_not_absolute _ H).
  - now rewrite has_sep_app, has_sep_normalised, H.
Qed.

Lemma dirname_spec_file (name : string) :
  has_sep name = false -> dirname (spec_file name) = "specs".
Proof.
  intros H. destruct (spec_file_plain name H) as (x & -> & Hx).
  unfold dirname. cbn [head_of has_sep Ascii.eqb Bool.eqb orb].
  rewrite (head_of_no_sep x Hx). reflexivity.
Qed.

End SpecPath.

(** X5: when the model returns a spec whose name holds no slash, [specs] is
    not a regular file and the spec file's path is not a directory,
    [create_spec] returns the spec, the [specs] directory exists, and the
    spec file holds exactly the dump of the spec, replacing what it held;
    no other file changes and the path is announced on the console. *)
Theorem create_spec_writes_the_spec_file (ai : model) (intent : Intent.t) (w : world)
    (spec : ProjectSpec.t) :
  call_ai_spec ai (ai_log w) intent = Ok spec ->
  has_sep (ProjectSpec.name spec) = false ->
  files w !! "specs" = None ->
  spec_file (ProjectSpec.name spec) ∉ dirs w ->
  fst (MasterAgent.create_spec ai intent w) = Ok spec
  /\ files (snd (MasterAgent.create_spec ai intent w))
     = <[ spec_file (ProjectSpec.name spec) := [ProjectSpec.model_dump spec] ]> (files w)
  /\ dirs (snd (MasterAgent.create_spec ai intent w)) = {[ "specs" ]} ∪ dirs w
  /\ console (snd (MasterAgent.create_spec ai intent w))
     = (console w ++ [Print ("[green]✓ Specification saved to: "
                               ++ spec_file (ProjectSpec.name spec) ++ "[/green]")])%list.
Proof.
  intros Hcall Hname Hspecs Hpath.
  set (path := spec_file (ProjectSpec.name spec)) in *.
  set (w0 := log_request (GenerateSpec (Intent.model_dump intent)) w).
  set (w1 := set_dirs ({[ "specs" ]} ∪ dirs w) w0).
  assert (Emk : exists w1', makedirs "specs" w0 = (Ok tt, w1')
                            /\ dirs w1' = {[ "specs" ]} ∪ dirs w
                            /\ files w1' = files w /\ console w1' = console w).
  { unfold makedirs, is_dir. cbn [String.eqb Ascii.eqb Bool.eqb all_sep orb andb].
    destruct (bool_decide ("specs" ∈ dirs w0)) eqn:Ed.
    - apply bool_decide_eq_true in Ed. exists w0. repeat split.
      cbn in *. symmetry. apply subseteq_union_1_L. set_solver.
    - rewrite bool_decide_eq_false_2; [exists w1; now repeat split|].
      cbn. rewrite Hspecs. now intros [? ?]. }
  destruct Emk as (w1' & Emk & Hd & Hf & Hc).
  assert (Hnotdir : is_dir w1' path = false).
  { unfold is_dir. destruct (spec_file_plain _ Hname) as (x & Ex & _).
    fold path in Ex.
    rewrite bool_decide_eq_false_2.
    - rewrite Ex. reflexivity.
    - rewrite Hd. intros [E|E]%elem_of_union; [|now apply Hpath].
      apply elem_of_singleton in E. rewrite Ex in E. discriminate. }
  assert (Eopen : open_w path w1' = (Ok tt, set_files (<[ path := [] ]> (files w1')) w1')).
  { assert (Hdn : dirname path = "specs") by apply (dirname_spec_file _ Hname).
    unfold open_w. rewrite Hnotdir, Hdn.
    rewrite bool_decide_eq_false_2 by (rewrite Hf, Hspecs; now intros [? ?]).
    unfold is_dir. cbn [String.eqb Ascii.eqb Bool.eqb all_sep orb andb].
    rewrite bool_decide_eq_true_2
      by (rewrite Hd; apply elem_of_union_l; now apply elem_of_singleton).
    reflexivity. }
  assert (E : MasterAgent.create_spec ai intent w
              = (Ok spec,
                 emit (Print ("[green]✓ Specification saved to: " ++ path ++ "[/green]"))
                   (set_files (<[ path := [ProjectSpec.model_dump spec] ]> (files w1'))
                      w1'))).
  { unfold MasterAgent.create_spec.
    erewrite try_except_ok; [reflexivity|].
    erewrite bind_ok; [|unfold ask_model; rewrite Hcall; reflexivity].
    fold w0. rewrite (bind_ok _ _ _ _ _ Emk).
    cbv zeta. fold path. rewrite (bind_ok _ _ _ _ _ Eopen).
    unfold json_dump, modify, console_print, bind, ret. cbn.
    rewrite lookup_insert_eq. cbn. now rewrite insert_insert_eq. }
  rewrite E. cbn. rewrite Hf, Hd, Hc. auto.
Qed.

Lemma create_spec_writes_the_spec_file_witness :
  fst (MasterAgent.create_spec rewording_model (Intent.Build ["login"]) (quiet_world []))
  = Ok (ProjectSpec.Build "My App" "A small app" ["login"]
          (ProjectStructure.Build [] [] [] []))
  /\ files (snd (MasterAgent.create_spec rewording_model (Intent.Build ["login"])
                   (quiet_world [])))
     = <[ "specs/my_app_spec.json" :=
            [ProjectSpec.model_dump
               (ProjectSpec.Build "My App" "A small app" ["login"]
                  (ProjectStructure.Build [] [] [] []))] ]> ∅.
Proof.
  destruct (create_spec_writes_the_spec_file rewording_model (Intent.Build ["login"])
              (quiet_world [])
              (ProjectSpec.Build "My App" "A small app" ["login"]
                 (ProjectStructure.Build [] [] [] []))
              eq_refl eq_refl (lookup_empty _) (not_elem_of_empty _))
    as (Hr & Hf & _).
  split; [exact Hr | exact Hf].
Defined.

(** X6: when [specs] exists as a regular file, [os.makedirs] fails, and
    [create_spec] raises its [ValueError] with the file system and the
    console as they were: nothing is created or written. *)
Theorem create_spec_fails_when_specs_is_a_file (ai : model) (intent : Intent.t)
    (w : world) (spec : ProjectSpec.t) (content : list pyval) :
  call_ai_spec ai (ai_log w) intent = Ok spec ->
  files w !! "specs" = Some content ->
  "specs" ∉ dirs w ->
  (exists cause,
     fst (MasterAgent.create_spec ai intent w)
     = Raise (ValueError ("Failed to create specification: " ++ cause)))
  /\ files (snd (MasterAgent.create_spec ai intent w)) = files w
  /\ dirs (snd (MasterAgent.create_spec ai intent w)) = dirs w
  /\ console (snd (MasterAgent.create_spec ai intent w)) = console w.
Proof.
  intros Hcall Hfile Hdir.
  assert (E : MasterAgent.create_spec ai intent w
              = (Raise (ValueError ("Failed to create specification: "
                                      ++ exn_str (FileExistsError "specs"))),
                 log_request (GenerateSpec (Intent.model_dump intent)) w)).
  { unfold MasterAgent.create_spec.
    erewrite try_except_raise; [reflexivity|].
    erewrite bind_ok; [|unfold ask_model; rewrite Hcall; reflexivity].
    apply bind_raise. unfold makedirs, is_dir.
    cbn [String.eqb Ascii.eqb Bool.eqb all_sep orb andb].
    rewrite bool_decide_eq_false_2 by exact Hdir.
    rewrite bool_decide_eq_true_2; [reflexivity|].
    cbn. rewrite Hfile. eauto. }
  rewrite E. cbn. eauto.
Qed.

Lemma create_spec_fails_when_specs_is_a_file_witness :
  files (snd (MasterAgent.create_spec rewording_model (Intent.Build ["login"])
                (World [] [] [] ∅ (<[ "specs" := [PStr "notes"] ]> ∅))))
  = <[ "specs" := [PStr "notes"] ]> ∅.
Proof.
  exact (proj1 (proj2 (create_spec_fails_when_specs_is_a_file rewording_model
                         (Intent.Build ["login"])
                         (World [] [] [] ∅ (<[ "specs" := [PStr "notes"] ]> ∅))
                         _ [PStr "notes"] eq_refl (lookup_insert_eq _ _ _)
                         (not_elem_of_empty _)))).
Defined.

(** ** More on the refinement loop *)

(** X7: with [max_attempts] zero or negative the loop body never runs:
    the operator is asked nothing, nothing is printed, and the intent comes
    back as it was. *)
Theorem loop_is_skipped_without_attempts (ai : model) (intent : Intent.t)
    (max_attempts : Z) (w : world) :
  max_attempts <= 0 ->
  MasterAgent.verify_with_user_loop ai intent max_attempts w
  = Some ([], (Ok intent, w)).
Proof.
  intros Hmax. unfold MasterAgent.verify_with_user_loop.
  cbn [MasterAgent.while_loop MasterAgent.attempts].
  destruct (Z.ltb_spec 0 max_attempts) as [H|H]; [lia|].
  now destruct intent.
Qed.

Lemma loop_is_skipped_without_attempts_witness :
  MasterAgent.verify_with_user_loop failing_model (Intent.Build ["login"]) 0
    (quiet_world ["y"; "1"; "search"; "n"])
  = Some ([], (Ok (Intent.Build ["login"]), quiet_world ["y"; "1"; "search"; "n"])).
Proof.
  apply (loop_is_skipped_without_attempts failing_model (Intent.Build ["login"]) 0
           (quiet_world ["y"; "1"; "search"; "n"])).
  discriminate.
Defined.

(** X8: when the operator declines to modify, or accepts and then chooses
    "done", the loop ends after that one iteration, the intent comes back
    as it was, and the model has not been called. *)
Theorem loop_ends_when_operator_is_done (ai : model) (intent : Intent.t)
    (max_attempts : Z) (w : world) (l : string) (r1 r2 : list string) :
  0 < max_attempts ->
  read_valid (one_of ["y"; "n"]) (stdin w) = Some (l, r1) ->
  (l = "n" /\ r2 = r1)
  \/ (l = "y" /\ read_valid (one_of ["1"; "2"; "3"]) r1 = Some ("3", r2)) ->
  exists w' : world,
    MasterAgent.verify_with_user_loop ai intent max_attempts w
    = Some ([MasterAgent.Iteration (MasterAgent.Vars (Intent.features intent) 0)
               (Some MasterAgent.Break)],
            (Ok intent, w'))
    /\ stdin w' = r2
    /\ ai_log w' = ai_log w.
Proof.
  intros Hmax Hy Hcase.
  set (v := MasterAgent.Vars (Intent.features intent) 0).
  assert (Hbody : exists w', MasterAgent.loop_body ai v w = (Ok (MasterAgent.Break, v), w')
                             /\ stdin w' = r2 /\ ai_log w' = ai_log w).
  { destruct Hcase as [[-> ->]|[-> Hc]].
    - unfold MasterAgent.loop_body.
      rewrite (bind_ok _ _ _ _ _ (show_features_eq _ _ _)).
      erewrite bind_ok; [|apply Confirm_ask_ok; exact Hy].
      cbn. eauto.
    - rewrite (loop_body_at_menu ai v w r1 r2 "3" Hy Hc). cbn. eauto. }
  destruct Hbody as (w' & E & Hin & Hlog). exists w'.
  unfold MasterAgent.verify_with_user_loop. cbn [MasterAgent.while_loop].
  fold v. change (MasterAgent.attempts v) with 0.
  apply Z.ltb_lt in Hmax. rewrite Hmax, E. cbn.
  destruct intent. auto.
Qed.

Lemma loop_ends_when_operator_is_done_witness :
  exists w' : world,
    MasterAgent.verify_with_user_loop failing_model (Intent.Build ["login"]) 3
      (quiet_world ["maybe"; "y"; "3"; "y"])
    = Some ([MasterAgent.Iteration (MasterAgent.Vars ["login"] 0)
               (Some MasterAgent.Break)],
            (Ok (Intent.Build ["login"]), w'))
    /\ stdin w' = ["y"]
    /\ ai_log w' = [].
Proof.
  exact (loop_ends_when_operator_is_done failing_model (Intent.Build ["login"]) 3
           (quiet_world ["maybe"; "y"; "3"; "y"]) "y" ["3"; "y"] ["y"]
           eq_refl eq_refl (or_intror (conj eq_refl eq_refl))).
Defined.

Section Frame.

Variable ai : model.

Lemma only_ret {A} (a : A) : only_enhances (ret a).
Proof. intros w. cbn. repeat split; auto. exists []. now rewrite app_nil_r. Qed.

Lemma only_raise {A} (e : exn) : only_enhances (@raise _ A e).
Proof. intros w. cbn. repeat split; auto. exists []. now rewrite app_nil_r. Qed.

Lemma only_bind {A B} (m : M world A) (k : A -> M world B) :
  only_enhances m -> (forall a, only_enhances (k a)) -> only_enhances (bind m k).
Proof.
  intros Hm Hk w. destruct (Hm w) as (F1 & D1 & q1 & L1 & Q1). unfold bind.
  destruct (m w) as [[a|e] w1]; cbn in *.
  - destruct (Hk a w1) as (F2 & D2 & q2 & L2 & Q2).
    rewrite F2, D2, L2, L1, F1, D1. repeat split; auto.
    exists (q1 ++ q2)%list. rewrite app_assoc. split; [reflexivity|].
    now apply Forall_app.
  - repeat split; eauto.
Qed.

Lemma only_try_except {A} (m : M world A) (h : exn -> M world A) :
  only_enhances m -> (forall e, only_enhances (h e)) -> only_enhances (try_except m h).
Proof.
  intros Hm Hh w. destruct (Hm w) as (F1 & D1 & q1 & L1 & Q1). unfold try_except.
  destruct (m w) as [[a|e] w1]; cbn in *.
  - repeat split; eauto.
  - destruct (Hh e w1) as (F2 & D2 & q2 & L2 & Q2).
    rewrite F2, D2, L2, L1, F1, D1. repeat split; auto.
    exists (q1 ++ q2)%list. rewrite app_assoc. split; [reflexivity|].
    now apply Forall_app.
Qed.

Lemma only_emit (e : console_event) : only_enhances (modify (emit e)).
Proof. intros w. cbn. repeat split; auto. exists []. now rewrite app_nil_r. Qed.

Lemma only_ask_until (valid : string -> bool) : only_enhances (ask_until valid).
Proof.
  intros w. unfold ask_until.
  destruct (read_valid valid (stdin w)) as [[l r]|]; cbn;
    repeat split; auto; exists []; now rewrite app_nil_r.
Qed.

Lemma only_for_each {A} (l : list A) (body : A -> M world unit) :
  (forall x, only_enhances (body x)) -> only_enhances (for_each l body).
Proof.
  intros Hb. induction l as [|x l IH]; cbn [for_each].
  - apply only_ret.
  - apply only_bind; auto.
Qed.

Lemma only_ask_enhance {A} (feature : string) (answer : list ai_request -> outcome A) :
  only_enhances (ask_model (EnhanceFeature feature) answer).
Proof.
  intros w. cbn. repeat split; auto. exists [EnhanceFeature feature].
  split; [reflexivity|]. now repeat constructor.
Qed.

Lemma only_validate_feature (feature : string) :
  only_enhances (MasterAgent.validate_feature ai feature).
Proof.
  apply only_bind; [apply only_ask_enhance | intros; apply only_ret].
Qed.

Lemma only_py_int (s : string) : only_enhances (py_int s).
Proof. unfold py_int. destruct (PyStr.to_int s); [apply only_ret | apply only_raise]. Qed.

Lemma only_py_pop {A} (l : list A) (i : Z) : only_enhances (py_pop l i).
Proof.
  unfold py_pop. cbv zeta.
  repeat match goal with
         | |- only_enhances (if ?b then _ else _) => destruct b
         end; first [apply only_ret | apply only_raise].
Qed.

Create HintDb frame.
Hint Resolve only_ret only_raise only_emit only_ask_until only_ask_enhance
  only_validate_feature only_py_int only_py_pop : frame.

Ltac frame :=
  repeat first
    [ apply only_bind; [|intros]
    | apply only_try_except; [|intros]
    | apply only_for_each; intros
    | match goal with
      | |- only_enhances (if ?b then _ else _) => destruct b
      | |- only_enhances (match ?x with _ => _ end) => destruct x
      end
    | solve [unfold console_print, status_start, status_stop, Prompt_ask, Confirm_ask;
             auto with frame]
    | solve [unfold Confirm_ask; apply only_bind; [|intros]; auto with frame] ].

Lemma only_loop_body (v : MasterAgent.loop_vars) :
  only_enhances (MasterAgent.loop_body ai v).
Proof.
  unfold MasterAgent.loop_body, MasterAgent.show_features, MasterAgent.add_feature,
    MasterAgent.remove_feature, MasterAgent.end_of_body, MasterAgent.show_features.
  frame.
Qed.

Lemma only_while_loop (max_attempts : Z) (fuel : nat) :
  forall (v : MasterAgent.loop_vars) (w : world) its r w',
    MasterAgent.while_loop ai max_attempts fuel v w = Some (its, (r, w')) ->
    files w' = files w /\ dirs w' = dirs w
    /\ exists reqs, ai_log w' = (ai_log w ++ reqs)%list /\ Forall is_enhance reqs.
Proof.
  induction fuel as [|fuel IH]; intros v w its r w';
    cbn [MasterAgent.while_loop];
    destruct (MasterAgent.attempts v <? max_attempts);
    try discriminate;
    try (intros [= <- <- <-]; repeat split; auto; exists []; now rewrite app_nil_r).
  pose proof (only_loop_body v w) as (F1 & D1 & q1 & L1 & Q1).
  destruct (MasterAgent.loop_body ai v w) as [[[fl v1]|e] w1]; cbn in F1, D1, L1.
  2:{ intros [= <- <- <-]. repeat split; eauto. }
  destruct fl.
  2:{ intros [= <- <- <-]. repeat split; eauto. }
  all: destruct (MasterAgent.while_loop ai max_attempts fuel v1 w1)
         as [[its1 [r1 w2]]|] eqn:Erec; [|discriminate];
       intros [= <- <- <-];
       destruct (IH _ _ _ _ _ Erec) as (F2 & D2 & q2 & L2 & Q2);
       rewrite F2, D2, L2, L1, F1, D1; repeat split; auto;
       exists (q1 ++ q2)%list; rewrite app_assoc; split; [reflexivity|];
       now apply Forall_app.
Qed.

End Frame.

(** X9: whatever the operator types and the model answers, the refinement
    loop leaves the file system alone, and the only requests it sends to
    the model are feature enhancements. *)
Theorem loop_only_enhances (ai : model) (intent : Intent.t) (max_attempts : Z)
    (w : world) :
  match MasterAgent.verify_with_user_loop ai intent max_attempts w with
  | Some (_, (_, w')) =>
      files w' = files w /\ dirs w' = dirs w
      /\ exists reqs, ai_log w' = (ai_log w ++ reqs)%list /\ Forall is_enhance reqs
  | None => False
  end.
Proof.
  unfold MasterAgent.verify_with_user_loop.
  destruct (while_loop_total ai max_attempts (S (length (stdin w)))
              (MasterAgent.Vars (Intent.features intent) 0) w ltac:(lia))
    as [[its [r w']] E].
  rewrite E. apply only_while_loop in E. now destruct r.
Qed.

(** X10: a feature added without asking for the enhancement is appended as
    typed, the counter advances, and the model is not called. *)
Theorem add_without_enhancement (ai : model) (v : MasterAgent.loop_vars) (w : world)
    (r1 r2 r3 : list string) (new_feature : string) :
  read_valid (one_of ["y"; "n"]) (stdin w) = Some ("y", r1) ->
  read_valid (one_of ["1"; "2"; "3"]) r1 = Some ("1", new_feature :: r2) ->
  read_valid (one_of ["y"; "n"]) r2 = Some ("n", r3) ->
  exists w' : world,
    MasterAgent.loop_body ai v w
    = (Ok (MasterAgent.Fallthrough,
           MasterAgent.Vars (MasterAgent.features v ++ [new_feature])
                            (MasterAgent.attempts v + 1)), w')
    /\ ai_log w' = ai_log w
    /\ stdin w' = r3.
Proof.
  intros Hy Hc Hno.
  rewrite (loop_body_at_menu ai v w r1 _ "1" Hy Hc).
  cbn [String.eqb Ascii.eqb Bool.eqb].
  assert (Eadd : MasterAgent.add_feature ai (MasterAgent.features v)
                   (at_menu (MasterAgent.features v) (new_feature :: r2) w)
                 = (Ok (MasterAgent.features v ++ [new_feature])%list,
                    at_menu (MasterAgent.features v) r3 w)).
  { unfold MasterAgent.add_feature.
    erewrite bind_ok; [|apply Prompt_ask_text; reflexivity].
    erewrite bind_ok; [|apply Confirm_ask_ok; exact Hno].
    reflexivity. }
  rewrite (bind_ok _ _ _ _ _ Eadd), end_of_body_eq.
  eexists. split; [reflexivity|]. split; reflexivity.
Qed.

Lemma add_without_enhancement_witness :
  exists w' : world,
    MasterAgent.loop_body failing_model (MasterAgent.Vars ["login"] 0)
      (quiet_world ["y"; "1"; "search"; "n"; "n"])
    = (Ok (MasterAgent.Fallthrough, MasterAgent.Vars ["login"; "search"] 1), w')
    /\ ai_log w' = []
    /\ stdin w' = ["n"].
Proof.
  exact (add_without_enhancement failing_model (MasterAgent.Vars ["login"] 0)
           (quiet_world ["y"; "1"; "search"; "n"; "n"])
           ["1"; "search"; "n"; "n"] ["n"; "n"] ["n"] "search"
           eq_refl eq_refl eq_refl).
Defined.

(** X11: when the enhancement differs from what was typed, the operator
    is asked whether to use it: on "y" the enhanced text is appended, on
    "n" the text as typed; one enhancement request has been sent. *)
Theorem add_with_enhancement_offered (ai : model) (v : MasterAgent.loop_vars)
    (w : world) (r1 r2 r3 r4 : list string) (new_feature enhanced answer : string)
    (others : list string) :
  read_valid (one_of ["y"; "n"]) (stdin w) = Some ("y", r1) ->
  read_valid (one_of ["1"; "2"; "3"]) r1 = Some ("1", new_feature :: r2) ->
  read_valid (one_of ["y"; "n"]) r2 = Some ("y", r3) ->
  call_ai_intent ai (ai_log w) new_feature = Ok (Intent.Build (enhanced :: others)) ->
  enhanced <> new_feature ->
  read_valid (one_of ["y"; "n"]) r3 = Some (answer, r4) ->
  exists w' : world,
    MasterAgent.loop_body ai v w
    = (Ok (MasterAgent.Fallthrough,
           MasterAgent.Vars
             (MasterAgent.features v
                ++ [if String.eqb answer "y" then enhanced else new_feature])
             (MasterAgent.attempts v + 1)), w')
    /\ ai_log w' = (ai_log w ++ [EnhanceFeature new_feature])%list
    /\ stdin w' = r4.
Proof.
  intros Hy Hc Hyes Hcall Hneq Huse.
  rewrite (loop_body_at_menu ai v w r1 _ "1" Hy Hc).
  cbn [String.eqb Ascii.eqb Bool.eqb].
  assert (Eadd : exists w1,
             MasterAgent.add_feature ai (MasterAgent.features v)
               (at_menu (MasterAgent.features v) (new_feature :: r2) w)
             = (Ok (MasterAgent.features v
                      ++ [if String.eqb answer "y" then enhanced else new_feature])%list,
                w1)
             /\ ai_log w1 = (ai_log w ++ [EnhanceFeature new_feature])%list
             /\ stdin w1 = r4).
  { unfold MasterAgent.add_feature.
    erewrite bind_ok; [|apply Prompt_ask_text; reflexivity].
    erewrite bind_ok; [|apply Confirm_ask_ok; exact Hyes].
    cbn [String.eqb Ascii.eqb Bool.eqb].
    eexists. split; [|split].
    - erewrite bind_ok; [reflexivity|].
      erewrite bind_ok; [|reflexivity].
      erewrite try_except_ok; [reflexivity|].
      erewrite bind_ok.
      2:{ unfold MasterAgent.validate_feature.
          erewrite bind_ok; [reflexivity|].
          unfold ask_model. cbn. rewrite Hcall. reflexivity. }
      cbn [Intent.features].
      apply String.eqb_neq in Hneq. rewrite Hneq. cbn [negb].
      erewrite bind_ok; [|reflexivity].
      erewrite bind_ok; [|apply Confirm_ask_ok; exact Huse].
      reflexivity.
    - reflexivity.
    - reflexivity. }
  destruct Eadd as (w1 & Eadd & Hlog & Hin).
  rewrite (bind_ok _ _ _ _ _ Eadd), end_of_body_eq.
  eexists. split; [reflexivity|]. split; assumption.
Qed.

Lemma add_with_enhancement_offered_witness :
  exists w' : world,
    MasterAgent.loop_body rewording_model (MasterAgent.Vars [] 0)
      (quiet_world ["y"; "1"; "login"; "y"; "y"])
    = (Ok (MasterAgent.Fallthrough,
           MasterAgent.Vars ["Email login with password reset"] 1), w')
    /\ ai_log w' = [EnhanceFeature "login"]
    /\ stdin w' = [].
Proof.
  exact (add_with_enhancement_offered rewording_model (MasterAgent.Vars [] 0)
           (quiet_world ["y"; "1"; "login"; "y"; "y"])
           ["1"; "login"; "y"; "y"] ["y"; "y"] ["y"] [] "login"
           "Email login with password reset" "y" []
           eq_refl eq_refl eq_refl eq_refl ltac:(discriminate) eq_refl).
Defined.

(** X12: when the model's answer holds no feature, or its first feature
    is the text as typed, the operator is not asked about it: the text as
    typed is appended and no further line is read. *)
Theorem add_with_unchanged_enhancement (ai : model) (v : MasterAgent.loop_vars)
    (w : world) (r1 r2 r3 : list string) (new_feature : string) (intent : Intent.t) :
  read_valid (one_of ["y"; "n"]) (stdin w) = Some ("y", r1) ->
  read_valid (one_of ["1"; "2"; "3"]) r1 = Some ("1", new_feature :: r2) ->
  read_valid (one_of ["y"; "n"]) r2 = Some ("y", r3) ->
  call_ai_intent ai (ai_log w) new_feature = Ok intent ->
  hd new_feature (Intent.features intent) = new_feature ->
  exists w' : world,
    MasterAgent.loop_body ai v w
    = (Ok (MasterAgent.Fallthrough,
           MasterAgent.Vars (MasterAgent.features v ++ [new_feature])
                            (MasterAgent.attempts v + 1)), w')
    /\ stdin w' = r3.
Proof.
  intros Hy Hc Hyes Hcall Hsame.
  rewrite (loop_body_at_menu ai v w r1 _ "1" Hy Hc).
  cbn [String.eqb Ascii.eqb Bool.eqb].
  assert (Eadd : exists w1,
             MasterAgent.add_feature ai (MasterAgent.features v)
               (at_menu (MasterAgent.features v) (new_feature :: r2) w)
             = (Ok (MasterAgent.features v ++ [new_feature])%list, w1)
             /\ stdin w1 = r3).
  { unfold MasterAgent.add_feature.
    erewrite bind_ok; [|apply Prompt_ask_text; reflexivity].
    erewrite bind_ok; [|apply Confirm_ask_ok; exact Hyes].
    cbn [String.eqb Ascii.eqb Bool.eqb].
    eexists. split.
    - erewrite bind_ok; [reflexivity|].
      erewrite bind_ok; [|reflexivity].
      erewrite try_except_ok; [reflexivity|].
      erewrite bind_ok.
      2:{ unfold MasterAgent.validate_feature.
          erewrite bind_ok; [reflexivity|].
          unfold ask_model. cbn. rewrite Hcall. reflexivity. }
      replace (match Intent.features intent with
               | [] => new_feature
               | first :: _ => first
               end) with new_feature
        by (destruct (Intent.features intent); cbn in Hsame; congruence).
      rewrite String.eqb_refl. cbn [negb].
      erewrite bind_ok; reflexivity.
    - reflexivity. }
  destruct Eadd as (w1 & Eadd & Hin).
  rewrite (bind_ok _ _ _ _ _ Eadd), end_of_body_eq.
  eexists. split; [reflexivity | assumption].
Qed.

Lemma add_with_unchanged_enhancement_witness :
  exists w' : world,
    MasterAgent.loop_body
      (Model (fun _ _ => Ok []) (fun _ _ => Ok (Intent.Build []))
             (fun _ _ => Raise (Exn "RuntimeError" "no answer")))
      (MasterAgent.Vars [] 0) (quiet_world ["y"; "1"; "login"; "y"; "n"])
    = (Ok (MasterAgent.Fallthrough, MasterAgent.Vars ["login"] 1), w')
    /\ stdin w' = ["n"].
Proof.
  exact (add_with_unchanged_enhancement
           (Model (fun _ _ => Ok []) (fun _ _ => Ok (Intent.Build []))
                  (fun _ _ => Raise (Exn "RuntimeError" "no answer")))
           (MasterAgent.Vars [] 0) (quiet_world ["y"; "1"; "login"; "y"; "n"])
           ["1"; "login"; "y"; "n"] ["y"; "n"] ["n"] "login" (Intent.Build [])
           eq_refl eq_refl eq_refl eq_refl eq_refl).
Defined.

Section Lengths.

Variable ai : model.

Lemma add_feature_appends (fs fs' : list string) (w w' : world) :
  MasterAgent.add_feature ai fs w = (Ok fs', w') ->
  exists f, fs' = (fs ++ [f])%list.
Proof.
  unfold MasterAgent.add_feature. intros H.
  apply bind_inv_ok in H as (nf & w1 & _ & H).
  apply bind_inv_ok in H as (enh & w2 & _ & H).
  apply bind_inv_ok in H as (nf' & w3 & _ & H).
  injection H as <- _. eauto.
Qed.

Lemma remove_feature_shrinks (fs fs' : list string) (w w' : world) :
  MasterAgent.remove_feature fs w = (Ok fs', w') ->
  S (length fs') = length fs.
Proof.
  unfold MasterAgent.remove_feature. intros H.
  apply bind_inv_ok in H as (answer & w1 & _ & H).
  apply bind_inv_ok in H as (n & w2 & _ & H).
  unfold py_pop in H. cbv zeta in H.
  destruct (Z.of_nat (length fs) =? 0); [discriminate|].
  set (j := if n - 1 <? 0 then n - 1 + Z.of_nat (length fs) else n - 1) in *.
  destruct (Z.ltb_spec j 0); [discriminate|].
  destruct (Z.leb_spec (Z.of_nat (length fs)) j); [discriminate|].
  cbn in H. injection H as <- _.
  rewrite length_delete; [lia|].
  apply lookup_lt_is_Some. lia.
Qed.

(** A run of the body that reaches its end has added one feature or
    removed one. *)
Lemma loop_body_one_feature (v v' : MasterAgent.loop_vars) (w w' : world) :
  MasterAgent.loop_body ai v w = (Ok (MasterAgent.Fallthrough, v'), w') ->
  length (MasterAgent.features v') = S (length (MasterAgent.features v))
  \/ S (length (MasterAgent.features v')) = length (MasterAgent.features v).
Proof.
  unfold MasterAgent.loop_body. intros H.
  apply bind_inv_ok in H as ([] & w1 & _ & H).
  apply bind_inv_ok in H as (modify_them & w2 & _ & H).
  destruct modify_them; cbn [negb] in H; [|discriminate].
  apply bind_inv_ok in H as ([] & w3 & _ & H).
  apply bind_inv_ok in H as ([] & w4 & _ & H).
  apply bind_inv_ok in H as ([] & w5 & _ & H).
  apply bind_inv_ok in H as ([] & w6 & _ & H).
  apply bind_inv_ok in H as (choice & w7 & _ & H).
  destruct (String.eqb choice "1").
  { apply bind_inv_ok in H as (fs & w8 & Eadd & H).
    rewrite end_of_body_eq in H. injection H as <- _.
    apply add_feature_appends in Eadd as (f & ->). cbn.
    left. rewrite length_app. cbn. lia. }
  destruct (String.eqb choice "2"); [|discriminate].
  destruct (MasterAgent.features v) as [|f0 fs0] eqn:Efs.
  { apply bind_inv_ok in H as ([] & w8 & _ & H). discriminate. }
  apply bind_inv_ok in H as (fs & w8 & Erm & H).
  rewrite end_of_body_eq in H. injection H as <- _.
  apply remove_feature_shrinks in Erm. cbn in *. right. lia.
Qed.

Lemma while_loop_lengths (max_attempts : Z) (fuel : nat) :
  forall (v v' : MasterAgent.loop_vars) (w w' : world) its,
    MasterAgent.while_loop ai max_attempts fuel v w = Some (its, (Ok v', w')) ->
    Z.abs (Z.of_nat (length (MasterAgent.features v'))
           - Z.of_nat (length (MasterAgent.features v)))
    <= MasterAgent.attempts v' - MasterAgent.attempts v.
Proof.
  induction fuel as [|fuel IH]; intros v v' w w' its;
    cbn [MasterAgent.while_loop];
    destruct (MasterAgent.attempts v <? max_attempts);
    try discriminate;
    try (intros [= <- <- <-]; lia).
  destruct (MasterAgent.loop_body ai v w) as [[[fl v1]|e] w1] eqn:E; [|discriminate].
  pose proof (loop_body_ok _ _ _ _ _ _ E) as [_ Hfl].
  destruct fl.
  - pose proof (loop_body_one_feature _ _ _ _ E) as Hlen.
    destruct (MasterAgent.while_loop ai max_attempts fuel v1 w1)
      as [[its1 [[v2|e2] w2]]|] eqn:Erec; try discriminate.
    intros [= <- <- <-]. specialize (IH _ _ _ _ _ Erec). lia.
  - intros [= <- <- <-]. subst v1. lia.
  - destruct Hfl as [-> _].
    destruct (MasterAgent.while_loop ai max_attempts fuel v w1)
      as [[its1 [[v2|e2] w2]]|] eqn:Erec; try discriminate.
    intros [= <- <- <-]. exact (IH _ _ _ _ _ Erec).
Qed.

End Lengths.

(** X13: the intent that [verify_with_user_loop] returns has at most
    [max_attempts] features more, and at most [max_attempts] fewer, than
    the one it was given. *)
Theorem loop_changes_few_features (ai : model) (intent intent' : Intent.t)
    (max_attempts : Z) (w w' : world) (its : list MasterAgent.iteration) :
  MasterAgent.verify_with_user_loop ai intent max_attempts w
  = Some (its, (Ok intent', w')) ->
  Z.abs (Z.of_nat (length (Intent.features intent'))
         - Z.of_nat (length (Intent.features intent)))
  <= Z.max 0 max_attempts.
Proof.
  unfold MasterAgent.verify_with_user_loop.
  destruct (MasterAgent.while_loop ai max_attempts (S (length (stdin w)))
              (MasterAgent.Vars (Intent.features intent) 0) w)
    as [[its1 [[v1|e1] w1]]|] eqn:E; try discriminate.
  intros [= <- <- <-].
  pose proof (while_loop_lengths ai _ _ _ _ _ _ _ E) as Hlen.
  destruct (while_loop_inv ai _ _ _ _ _ _ _ E) as (_ & _ & _ & Hatt).
  cbn in *. lia.
Qed.

Lemma loop_changes_few_features_witness :
  Z.abs (Z.of_nat (length ["login"; "search"; "chat"]) - Z.of_nat (length ["login"]))
  <= Z.max 0 2.
Proof.
  eapply (loop_changes_few_features failing_model (Intent.Build ["login"])
            (Intent.Build ["login"; "search"; "chat"]) 2
            (quiet_world ["y"; "1"; "search"; "n"; "y"; "1"; "chat"; "n"; "y"])).
  vm_compute. reflexivity.
Defined.

(** ** More on the per-unit calls *)

Section Units.

Variable agent : codebase_agent.

Lemma get_both_truthy (d : list (string * pyval)) (a b : string) (x y : pyval)
    (s : agent_state) :
  assoc a d = Some x -> truthy x = true ->
  assoc b d = Some y -> truthy y = true ->
  CodeAgent.get_both (PDict d) a b s = (Ok true, s).
Proof.
  intros Ha Hx Hb Hy. unfold CodeAgent.get_both, py_get, bind, ret.
  rewrite Ha. cbn [default id]. rewrite Hx, Hb. cbn [default id]. now rewrite Hy.
Qed.

Lemma py_getitem_present {S} (d : list (string * pyval)) (k : string) (x : pyval)
    (s : S) :
  assoc k d = Some x -> py_getitem (PDict d) k s = (Ok x, s).
Proof. intros H. unfold py_getitem. now rewrite H. Qed.

Lemma edit_from_plan_complete (d : list (string * pyval)) (sid : session)
    (file_path content : pyval) (s : agent_state) :
  assoc "file_path" d = Some file_path -> truthy file_path = true ->
  assoc "content" d = Some content -> truthy content = true ->
  CodeAgent.edit_from_plan agent (PDict d) sid s
  = (match agent (trace s) (Invoke (EditFile file_path content) sid) with
     | Ok _ => Ok tt
     | Raise e => Raise e
     end,
     AgentState (trace s ++ [Invoke (EditFile file_path content) sid]) (shown s)).
Proof.
  intros Hf Htf Hc Htc. unfold CodeAgent.edit_from_plan.
  rewrite (bind_ok _ _ _ _ _ (get_both_truthy _ _ _ _ _ _ Hf Htf Hc Htc)).
  rewrite (bind_ok _ _ _ _ _ (py_getitem_present _ _ _ _ Hf)).
  rewrite (bind_ok _ _ _ _ _ (py_getitem_present _ _ _ _ Hc)).
  unfold bind, CodeAgent._execute_file_edit, CodeAgent.invoke.
  now destruct (agent (trace s) (Invoke (EditFile file_path content) sid)).
Qed.

End Units.

(** X14: when the plan of a component or of a route names a non-empty
    [file_path] and a non-empty [content], exactly one edit follows the
    planning call, with that path and content under the unit's edit
    session; the unit fails only if the edit does. *)
Theorem edit_follows_a_complete_plan (agent : codebase_agent)
    (implementation_context : pyval) (u : work_unit) (s : agent_state)
    (d : list (string * pyval)) (sid : session) (file_path content : pyval) :
  single_file_session u = Some sid ->
  agent (trace s) (plan_invocation implementation_context u) = Ok (PDict d) ->
  assoc "file_path" d = Some file_path -> truthy file_path = true ->
  assoc "content" d = Some content -> truthy content = true ->
  calls_made (implement_unit agent implementation_context u) s
  = [plan_invocation implementation_context u; Invoke (EditFile file_path content) sid]
  /\ fst (implement_unit agent implementation_context u s)
     = match agent (trace s ++ [plan_invocation implementation_context u])%list
               (Invoke (EditFile file_path content) sid) with
       | Ok _ => Ok tt
       | Raise e => Raise e
       end.
Proof.
  intros Hsid Hplan Hf Htf Hc Htc.
  assert (E : implement_unit agent implementation_context u s
              = (match agent (trace s ++ [plan_invocation implementation_context u])%list
                         (Invoke (EditFile file_path content) sid) with
                 | Ok _ => Ok tt
                 | Raise e => Raise e
                 end,
                 AgentState ((trace s ++ [plan_invocation implementation_context u])
                               ++ [Invoke (EditFile file_path content) sid])
                            (shown s))).
  { destruct u as [c|r|t|]; try discriminate; injection Hsid as <-;
      cbn [implement_unit plan_invocation] in *.
    - unfold CodeAgent.implement_component.
      rewrite (bind_ok _ _ _ _ _ (invoke_ok agent _ _ _ Hplan)).
      now rewrite (edit_from_plan_complete agent d _ file_path content).
    - unfold CodeAgent.implement_api_route.
      rewrite (bind_ok _ _ _ _ _ (invoke_ok agent _ _ _ Hplan)).
      now rewrite (edit_from_plan_complete agent d _ file_path content). }
  rewrite E. cbn [fst snd]. split; [|reflexivity].
  unfold calls_made. rewrite E. cbn [snd trace].
  now rewrite <- app_assoc, drop_app_length.
Qed.

Lemma edit_follows_a_complete_plan_witness :
  calls_made (implement_unit filing_agent PNone
                (UComponent (Component.Build "Header" "Top bar" false))) fresh_state
  = [plan_invocation PNone (UComponent (Component.Build "Header" "Top bar" false));
     Invoke (EditFile (PStr "app/page.tsx") (PStr "export default function Page() {}"))
            (S_edit_component "Header")].
Proof.
  exact (proj1 (edit_follows_a_complete_plan filing_agent PNone
                  (UComponent (Component.Build "Header" "Top bar" false)) fresh_state
                  _ _ _ _ eq_refl eq_refl eq_refl eq_refl eq_refl eq_refl)).
Defined.

(** X15: a planning response that is not a dictionary makes the unit raise
    an [AttributeError] right after the planning call: no edit is
    issued. *)
Theorem plan_that_is_no_dictionary_raises (agent : codebase_agent)
    (implementation_context : pyval) (u : work_unit) (s : agent_state)
    (response : pyval) :
  agent (trace s) (plan_invocation implementation_context u) = Ok response ->
  is_dict response = false ->
  exists msg,
    implement_unit agent implementation_context u s
    = (Raise (AttributeError msg),
       AgentState (trace s ++ [plan_invocation implementation_context u]) (shown s)).
Proof.
  intros Hplan Hnd. exists "object has no attribute 'get'".
  destruct u as [c|r|t|]; cbn [implement_unit plan_invocation] in *.
  - unfold CodeAgent.implement_component.
    rewrite (bind_ok _ _ _ _ _ (invoke_ok agent _ _ _ Hplan)).
    now destruct response.
  - unfold CodeAgent.implement_api_route.
    rewrite (bind_ok _ _ _ _ _ (invoke_ok agent _ _ _ Hplan)).
    now destruct response.
  - unfold CodeAgent.implement_table.
    rewrite (bind_ok _ _ _ _ _ (invoke_ok agent _ _ _ Hplan)).
    now destruct response.
  - unfold CodeAgent._integrate_components.
    rewrite (bind_ok _ _ _ _ _ (invoke_ok agent _ _ _ Hplan)).
    now destruct response.
Qed.

Lemma plan_that_is_no_dictionary_raises_witness :
  exists msg,
    implement_unit (fun _ _ => Ok (PStr "Create app/page.tsx")) PNone UIntegration
      fresh_state
    = (Raise (AttributeError msg), AgentState [plan_invocation PNone UIntegration] []).
Proof.
  exact (plan_that_is_no_dictionary_raises (fun _ _ => Ok (PStr "Create app/page.tsx"))
           PNone UIntegration fresh_state (PStr "Create app/page.tsx")
           eq_refl eq_refl).
Defined.

Section Entries.

Variable agent : codebase_agent.
Hypothesis answers : always_answers agent.

Lemma get_both_dict (d : list (string * pyval)) (a b : string) (s : agent_state) :
  CodeAgent.get_both (PDict d) a b s
  = (Ok (truthy (default PNone (assoc a d)) && truthy (default PNone (assoc b d))), s).
Proof.
  unfold CodeAgent.get_both, py_get, bind, ret.
  now destruct (truthy (default PNone (assoc a d))).
Qed.

Lemma edit_entry (session_of : pyval -> session) (d : list (string * pyval))
    (s : agent_state) :
  (both <- CodeAgent.get_both (PDict d) "path" "content" ;;
   if both then
     path <- py_getitem (PDict d) "path" ;;
     content <- py_getitem (PDict d) "content" ;;
     CodeAgent._execute_file_edit agent path content (session_of path) ;;
     ret tt
   else ret tt) s
  = (Ok tt,
     AgentState (trace s ++ (if entry_complete (PDict d)
                             then [entry_edit session_of (PDict d)] else []))
                (shown s)).
Proof.
  rewrite (bind_ok _ _ _ _ _ (get_both_dict _ _ _ _)).
  cbn [entry_complete entry_edit].
  destruct (assoc "path" d) as [p|] eqn:Ep; cbn [default id truthy andb].
  2:{ cbn. rewrite app_nil_r. now destruct s. }
  destruct (truthy p); cbn [andb].
  2:{ cbn. rewrite app_nil_r. now destruct s. }
  destruct (assoc "content" d) as [c|] eqn:Ec; cbn [default id truthy].
  2:{ cbn. rewrite app_nil_r. now destruct s. }
  destruct (truthy c).
  2:{ cbn. rewrite app_nil_r. now destruct s. }
  rewrite (bind_ok _ _ _ _ _ (py_getitem_present _ _ _ _ Ep)).
  rewrite (bind_ok _ _ _ _ _ (py_getitem_present _ _ _ _ Ec)).
  destruct (answers (trace s) (Invoke (EditFile p c) (session_of p))) as [r Hr].
  unfold CodeAgent._execute_file_edit.
  now rewrite (bind_ok _ _ _ _ _ (invoke_ok agent _ _ _ Hr)).
Qed.

Lemma edit_entries (session_of : pyval -> session) (l : list pyval) :
  forallb is_dict l = true ->
  forall s,
    for_each l (fun file_info =>
      both <- CodeAgent.get_both file_info "path" "content" ;;
      if both then
        path <- py_getitem file_info "path" ;;
        content <- py_getitem file_info "content" ;;
        CodeAgent._execute_file_edit agent path content (session_of path) ;;
        ret tt
      else ret tt) s
    = (Ok tt,
       AgentState (trace s ++ map (entry_edit session_of) (List.filter entry_complete l))
                  (shown s)).
Proof.
  induction l as [|e l IH]; intros Hd s; cbn [forallb for_each List.filter map].
  - cbn. rewrite app_nil_r. now destruct s.
  - apply andb_true_iff in Hd as [He Hl]. destruct e as [| | | | |d]; try discriminate.
    rewrite (bind_ok _ _ _ _ _ (edit_entry session_of d s)), (IH Hl).
    cbn [trace shown]. rewrite <- app_assoc.
    now destruct (entry_complete (PDict d)).
Qed.

End Entries.

(** X16: for a table or for the integration, when the plan's [files] is a
    list of dictionaries and the agent answers every invocation, the
    edits issued are those of the entries that have a non-empty [path]
    and a non-empty [content], one each and in the order of the list; the
    other entries are passed over. *)
Theorem one_edit_per_complete_entry (agent : codebase_agent)
    (implementation_context : pyval) (u : work_unit) (s : agent_state)
    (d : list (string * pyval)) (l : list pyval) (session_of : pyval -> session) :
  always_answers agent ->
  files_session u = Some session_of ->
  agent (trace s) (plan_invocation implementation_context u) = Ok (PDict d) ->
  assoc "files" d = Some (PList l) ->
  forallb is_dict l = true ->
  implement_unit agent implementation_context u s
  = (Ok tt,
     AgentState (trace s ++ plan_invocation implementation_context u
                   :: map (entry_edit session_of) (List.filter entry_complete l))
                (shown s)).
Proof.
  intros Hans Hsess Hplan Hfiles Hdicts.
  assert (E : forall s1,
             CodeAgent.edits_from_files agent (PDict d) session_of s1
             = (Ok tt,
                AgentState (trace s1 ++ map (entry_edit session_of)
                                          (List.filter entry_complete l))
                           (shown s1))).
  { intros s1. unfold CodeAgent.edits_from_files.
    erewrite bind_ok; [|reflexivity]. rewrite Hfiles. cbn [default id truthy].
    destruct l as [|e l'].
    - cbn. rewrite app_nil_r. now destruct s1.
    - rewrite (bind_ok _ _ _ _ _ (py_getitem_present _ _ _ _ Hfiles)).
      erewrite bind_ok; [|reflexivity].
      now apply edit_entries. }
  destruct u as [c|r|t|]; try discriminate; injection Hsess as <-;
    cbn [implement_unit plan_invocation] in *.
  - unfold CodeAgent.implement_table.
    rewrite (bind_ok _ _ _ _ _ (invoke_ok agent _ _ _ Hplan)), E.
    cbn [trace shown]. now rewrite <- app_assoc.
  - unfold CodeAgent._integrate_components.
    rewrite (bind_ok _ _ _ _ _ (invoke_ok agent _ _ _ Hplan)), E.
    cbn [trace shown]. now rewrite <- app_assoc.
Qed.

Lemma one_edit_per_complete_entry_witness :
  implement_unit filing_agent PNone
    (UTable (SupabaseTable.Build "users" "create table users (id uuid primary key)"))
    fresh_state
  = (Ok tt,
     AgentState
       [plan_invocation PNone
          (UTable (SupabaseTable.Build "users"
                     "create table users (id uuid primary key)"));
        Invoke (EditFile (PStr "types/user.ts") (PStr "export type User = {}"))
               (S_edit_table "users" (PStr "types/user.ts"))] []).
Proof.
  exact (one_edit_per_complete_entry filing_agent PNone
           (UTable (SupabaseTable.Build "users"
                      "create table users (id uuid primary key)"))
           fresh_state _ _ _ (fun _ _ => ex_intro _ _ eq_refl)
           eq_refl eq_refl eq_refl eq_refl).
Defined.

(** ** The planning calls of a successful run *)

Section Plans.

Variable agent : codebase_agent.

Lemma plans_of_edits (edits : list invocation) :
  Forall (fun c => is_edit c = true) edits -> plans edits = [].
Proof.
  induction 1 as [|c l Hc _ IH]; [reflexivity|].
  unfold plans in *. cbn [List.filter]. now rewrite Hc.
Qed.

Lemma unit_calls (ctx : pyval) (u : work_unit) (s : agent_state) :
  exists edits,
    trace (snd (implement_unit agent ctx u s))
    = (trace s ++ plan_invocation ctx u :: edits)%list
    /\ Forall (fun c => is_edit c = true) edits.
Proof.
  assert (G : forall (rest : pyval -> M agent_state unit),
             (forall plan, emits (fun c => is_edit c = true) (rest plan)) ->
             exists edits,
               trace (snd (bind (CodeAgent.invoke agent (plan_invocation ctx u)) rest s))
               = (trace s ++ plan_invocation ctx u :: edits)%list
               /\ Forall (fun c => is_edit c = true) edits).
  { intros rest Hrest. unfold bind, CodeAgent.invoke.
    destruct (agent (trace s) (plan_invocation ctx u)) as [plan|e].
    - destruct (Hrest plan (AgentState (trace s ++ [plan_invocation ctx u]) (shown s)))
        as (edits & T & F).
      exists edits. rewrite T. cbn [trace]. now rewrite <- app_assoc.
    - exists []. auto. }
  destruct u as [c|r|t|]; cbn [implement_unit plan_invocation] in *;
    apply G; intros plan;
    first [now apply emits_edit_from_plan | now apply emits_edits_from_files].
Qed.

Lemma for_each_plans {A} (f : A -> M agent_state unit) (g : A -> invocation) :
  (forall x, is_edit (g x) = false) ->
  (forall x s, exists edits,
      trace (snd (f x s)) = (trace s ++ g x :: edits)%list
      /\ Forall (fun c => is_edit c = true) edits) ->
  forall l s s',
    for_each l f s = (Ok tt, s') ->
    exists calls, trace s' = (trace s ++ calls)%list /\ plans calls = map g l.
Proof.
  intros Hg Hf. induction l as [|x l IH]; intros s s'; cbn [for_each].
  - intros [= <-]. exists []. now rewrite app_nil_r.
  - intros H. apply bind_inv_ok in H as ([] & s1 & E1 & H).
    destruct (Hf x s) as (edits & T1 & F1). rewrite E1 in T1. cbn [snd] in T1.
    destruct (IH _ _ H) as (calls & T2 & P2).
    exists (g x :: edits ++ calls)%list. split.
    + rewrite T2, T1, <- app_assoc. reflexivity.
    + unfold plans in *. cbn [List.filter map]. rewrite Hg. cbn [negb].
      rewrite List.filter_app. fold (plans edits).
      now rewrite (plans_of_edits _ F1), P2.
Qed.

Lemma analyze_codebase_ok_inv (s s' : agent_state) (analysis : pyval) :
  CodeAgent.analyze_codebase agent s = (Ok analysis, s') ->
  agent (trace s) analyze_call = Ok analysis
  /\ trace s' = (trace s ++ [analyze_call])%list.
Proof.
  unfold CodeAgent.analyze_codebase, try_except, bind, CodeAgent.invoke.
  fold analyze_call.
  destruct (agent (trace s) analyze_call) as [a|e]; cbn; [|discriminate].
  intros [= <- <-]. auto.
Qed.

End Plans.

(** X17: a run of [implement_features] that succeeds has made, besides
    the file edits, exactly these calls in this order: the analysis, the
    plan (given the analysis and the spec), one planning call for each
    component, then each route, then each table of the spec in the
    spec's order, and the integration call; every one of the per-unit
    calls and the integration call carries the plan's answer, unchanged,
    as its implementation context. *)
Theorem successful_run_plans_every_unit (agent : codebase_agent) (spec : ProjectSpec.t)
    (s s' : agent_state) (result : string) :
  CodeAgent.implement_features agent spec s = (Ok result, s') ->
  exists (analysis ctx : pyval) (calls : list invocation),
    agent (trace s) analyze_call = Ok analysis
    /\ agent (trace s ++ [analyze_call])%list (plan_call analysis spec) = Ok ctx
    /\ trace s' = (trace s ++ calls)%list
    /\ plans calls
       = (analyze_call :: plan_call analysis spec
            :: map (fun c => plan_invocation ctx (UComponent c))
                   (ProjectStructure.components (ProjectSpec.structure spec))
            ++ map (fun r => plan_invocation ctx (URoute r))
                   (ProjectStructure.api_routes (ProjectSpec.structure spec))
            ++ map (fun t => plan_invocation ctx (UTable t))
                   (ProjectStructure.database (ProjectSpec.structure spec))
            ++ [plan_invocation ctx UIntegration])%list.
Proof.
  intros Hrun. unfold CodeAgent.implement_features in Hrun.
  apply reraise_ok_inv in Hrun.
  apply bind_inv_ok in Hrun as (analysis & s0 & E0 & Hrun).
  apply analyze_codebase_ok_inv in E0 as [Ha T0].
  apply bind_inv_ok in Hrun as (ctx & s1 & E1 & Hrun).
  assert (Hp : agent (trace s0) (plan_call analysis spec) = Ok ctx
               /\ trace s1 = (trace s0 ++ [plan_call analysis spec])%list).
  { unfold CodeAgent._generate_implementation_plan, CodeAgent.invoke in E1.
    fold (plan_call analysis spec) in E1.
    destruct (agent (trace s0) (plan_call analysis spec)); [|discriminate].
    injection E1 as -> <-. auto. }
  destruct Hp as [Hp T1]. rewrite T0 in Hp.
  apply bind_inv_ok in Hrun as ([] & s2 & E2 & Hrun). injection E2 as <-.
  apply bind_inv_ok in Hrun as ([] & s3 & E3 & Hrun). injection E3 as <-.
  apply bind_inv_ok in Hrun as ([] & s4 & E4 & Hrun).
  apply bind_inv_ok in Hrun as ([] & s5 & E5 & Hrun).
  apply bind_inv_ok in Hrun as ([] & s6 & E6 & Hrun).
  apply bind_inv_ok in Hrun as ([] & s7 & E7 & Hrun).
  apply bind_inv_ok in Hrun as ([] & s8 & E8 & Hrun). injection E8 as <-.
  injection Hrun as _ <-.
  apply (for_each_plans _ (fun c => plan_invocation ctx (UComponent c)))
    in E4 as (c4 & T4 & P4);
    [| reflexivity | intros x s9; apply (unit_calls agent ctx (UComponent x))].
  apply (for_each_plans _ (fun r => plan_invocation ctx (URoute r)))
    in E5 as (c5 & T5 & P5);
    [| reflexivity | intros x s9; apply (unit_calls agent ctx (URoute x))].
  apply (for_each_plans _ (fun t => plan_invocation ctx (UTable t)))
    in E6 as (c6 & T6 & P6);
    [| reflexivity | intros x s9; apply (unit_calls agent ctx (UTable x))].
  destruct (unit_calls agent ctx UIntegration s6) as (edits & T7 & F7).
  change (implement_unit agent ctx UIntegration s6)
    with (CodeAgent._integrate_components agent ctx s6) in T7.
  rewrite E7 in T7. cbn [snd] in T7.
  exists analysis, ctx,
    (analyze_call :: plan_call analysis spec
       :: c4 ++ c5 ++ c6 ++ plan_invocation ctx UIntegration :: edits)%list.
  split; [exact Ha|]. split; [exact Hp|]. split.
  - cbn [trace] in *. rewrite T7, T6, T5, T4. cbn [trace]. rewrite T1, T0.
    rewrite <- !app_assoc. reflexivity.
  - unfold plans in *. cbn [List.filter is_edit input analyze_call plan_call negb].
    rewrite !List.filter_app, P4, P5, P6.
    cbn [List.filter is_edit input plan_invocation negb].
    fold (plans edits). now rewrite (plans_of_edits _ F7).
Qed.

Lemma successful_run_plans_every_unit_witness :
  exists (analysis ctx : pyval) (calls : list invocation),
    silent_agent [] analyze_call = Ok analysis
    /\ silent_agent [analyze_call] (plan_call analysis sample_spec) = Ok ctx
    /\ trace (snd (CodeAgent.implement_features silent_agent sample_spec fresh_state))
       = ([] ++ calls)%list
    /\ plans calls
       = (analyze_call :: plan_call analysis sample_spec
            :: map (fun c => plan_invocation ctx (UComponent c))
                   (ProjectStructure.components (ProjectSpec.structure sample_spec))
            ++ map (fun r => plan_invocation ctx (URoute r))
                   (ProjectStructure.api_routes (ProjectSpec.structure sample_spec))
            ++ map (fun t => plan_invocation ctx (UTable t))
                   (ProjectStructure.database (ProjectSpec.structure sample_spec))
            ++ [plan_invocation ctx UIntegration])%list.
Proof.
  exact (successful_run_plans_every_unit silent_agent sample_spec fresh_state
           (snd (CodeAgent.implement_features silent_agent sample_spec fresh_state))
           "Features implemented successfully" eq_refl).
Defined.

(** X18: when the first analysis call of [transform_template] raises, the
    exception comes out unchanged, that call is the only invocation made,
    and the console shows the analysis error and then the transformation
    error. *)
Theorem failed_analysis_stops_the_transformation (agent : codebase_agent)
    (spec : ProjectSpec.t) (s : agent_state) (e : exn) :
  agent (trace s) analyze_call = Raise e ->
  CodeAgent.transform_template agent spec s
  = (Raise e,
     AgentState (trace s ++ [analyze_call])
       (shown s ++ [Print ("[red]Error analyzing codebase: " ++ exn_str e ++ "[/red]");
                    Print ("[red]Error transforming template: " ++ exn_str e
                             ++ "[/red]")])).
Proof.
  intros H.
  unfold CodeAgent.transform_template, CodeAgent.analyze_codebase, try_except, bind,
    CodeAgent.invoke.
  fold analyze_call. rewrite H. cbn. now rewrite <- app_assoc.
Qed.

Lemma failed_analysis_stops_the_transformation_witness :
  CodeAgent.transform_template (fun _ _ => Raise (Exn "TimeoutError" "timed out"))
    sample_spec fresh_state
  = (Raise (Exn "TimeoutError" "timed out"),
     AgentState [analyze_call]
       [Print "[red]Error analyzing codebase: timed out[/red]";
        Print "[red]Error transforming template: timed out[/red]"]).
Proof.
  exact (failed_analysis_stops_the_transformation
           (fun _ _ => Raise (Exn "TimeoutError" "timed out")) sample_spec fresh_state
           (Exn "TimeoutError" "timed out") eq_refl).
Defined.

(** ** [TestAgent.backend_serving_test] *)

Section Endpoints.

Variable client : http_client.

Lemma check_endpoint_greets (endpoint : string) (requested : list string) :
  greets (client requested endpoint) ->
  TestAgent.check_endpoint client endpoint requested
  = (Ok tt, (requested ++ [endpoint])%list).
Proof.
  intros (body & E & Hb).
  unfold TestAgent.check_endpoint, TestAgent.get, bind. rewrite E.
  cbn. now rewrite Hb.
Qed.

Lemma check_endpoint_cases (endpoint : string) (requested : list string) :
  (greets (client requested endpoint)
   /\ TestAgent.check_endpoint client endpoint requested
      = (Ok tt, (requested ++ [endpoint])%list))
  \/ (~ greets (client requested endpoint)
      /\ exists e, TestAgent.check_endpoint client endpoint requested
                   = (Raise e, (requested ++ [endpoint])%list)).
Proof.
  unfold TestAgent.check_endpoint, TestAgent.get, bind, greets.
  destruct (client requested endpoint) as [[code [body|e]]|e];
    cbn [status_code json].
  - destruct (Z.eqb_spec code 200) as [->|Hcode].
    + cbn. destruct (TestAgent.equals_hello body) eqn:Hb.
      * left. split; [eauto | reflexivity].
      * right. split; [|cbn; eauto].
        intros (b & [= <-] & Hb'). congruence.
    + right. split; [|cbn; eauto].
      intros (b & [= -> _] & _). congruence.
  - right. split.
    + intros (b & H & _). discriminate H.
    + destruct (code =? 200); cbn; eauto.
  - right. split; [|cbn; eauto]. intros (b & [=] & _).
Qed.

Lemma for_each_endpoints_ok (endpoints : list string) :
  forall requested requested',
    for_each endpoints (TestAgent.check_endpoint client) requested = (Ok tt, requested') ->
    requested' = (requested ++ endpoints)%list
    /\ forall i url, endpoints !! i = Some url ->
                     greets (client (requested ++ take i endpoints)%list url).
Proof.
  induction endpoints as [|x l IH]; intros requested requested'; cbn [for_each].
  - intros [= <-]. rewrite app_nil_r. split; [reflexivity|]. intros i url H.
    now rewrite lookup_nil in H.
  - intros H. apply bind_inv_ok in H as ([] & r1 & E1 & H).
    destruct (check_endpoint_cases x requested) as [[Hg E]|[_ [e E]]];
      rewrite E in E1; [|discriminate].
    injection E1 as <-. destruct (IH _ _ H) as [-> Hall].
    split; [now rewrite <- app_assoc|].
    intros [|i] url Hi; cbn in Hi.
    + injection Hi as <-. cbn. now rewrite app_nil_r.
    + specialize (Hall i url Hi). cbn [take]. now rewrite <- app_assoc in Hall.
Qed.

Lemma for_each_endpoints_stop (endpoints : list string) :
  forall requested i url,
    endpoints !! i = Some url ->
    (forall j u, (j < i)%nat -> endpoints !! j = Some u ->
                 greets (client (requested ++ take j endpoints)%list u)) ->
    ~ greets (client (requested ++ take i endpoints)%list url) ->
    exists e,
      for_each endpoints (TestAgent.check_endpoint client) requested
      = (Raise e, (requested ++ take (S i) endpoints)%list).
Proof.
  induction endpoints as [|x l IH]; intros requested i url Hi Hbefore Hbad.
  - now rewrite lookup_nil in Hi.
  - cbn [for_each]. destruct i as [|i]; cbn in Hi.
    + injection Hi as <-. cbn [take] in Hbad. rewrite app_nil_r in Hbad.
      destruct (check_endpoint_cases x requested) as [[Hg _]|[_ [e E]]];
        [contradiction|].
      exists e. rewrite (bind_raise _ _ _ _ _ E). cbn [take]. reflexivity.
    + assert (Hx : greets (client requested x)).
      { specialize (Hbefore 0%nat x ltac:(lia) eq_refl).
        cbn [take] in Hbefore. now rewrite app_nil_r in Hbefore. }
      rewrite (bind_ok _ _ _ _ _ (check_endpoint_greets _ _ Hx)).
      destruct (IH (requested ++ [x])%list i url Hi) as [e E].
      * intros j u Hj Hu. specialize (Hbefore (S j) u ltac:(lia) Hu).
        cbn [take] in Hbefore. now rewrite <- app_assoc.
      * cbn [take] in Hbad. now rewrite <- app_assoc.
      * exists e. rewrite E. cbn [take]. now rewrite <- app_assoc.
Qed.

End Endpoints.

(** X19: [backend_serving_test] passes only on an object that has
    [endpoints] (a [ProjectSpec] has none), and only when every endpoint,
    requested once and in order, answered with status 200 and the body
    [{"message": "Hello, World!"}]. *)
Theorem passing_test_saw_every_endpoint_greet (client : http_client) (spec : test_spec)
    (requested requested' : list string) :
  TestAgent.backend_serving_test client spec requested = (Ok tt, requested') ->
  exists endpoints,
    spec = WithEndpoints endpoints
    /\ requested' = (requested ++ endpoints)%list
    /\ forall i url, endpoints !! i = Some url ->
                     greets (client (requested ++ take i endpoints)%list url).
Proof.
  unfold TestAgent.backend_serving_test. destruct spec as [endpoints|ps].
  - cbn [TestAgent.endpoints_of]. intros H.
    rewrite (bind_ok _ _ _ _ _ (eq_refl : ret endpoints requested = (Ok _, _))) in H.
    exists endpoints. split; [reflexivity|]. now apply for_each_endpoints_ok.
  - cbn. discriminate.
Qed.

Lemma passing_test_saw_every_endpoint_greet_witness :
  exists endpoints,
    WithEndpoints ["/health"; "/health"] = WithEndpoints endpoints
    /\ ["/health"; "/health"] = ([] ++ endpoints)%list
    /\ forall i url, endpoints !! i = Some url ->
                     greets (one_good_endpoint ([] ++ take i endpoints)%list url).
Proof.
  exact (passing_test_saw_every_endpoint_greet one_good_endpoint
           (WithEndpoints ["/health"; "/health"]) [] ["/health"; "/health"] eq_refl).
Defined.

(** X20: the test stops at the first endpoint that does not answer 200
    with the expected body (or whose request or body decoding fails): it
    raises there, and the endpoints after it are not requested. *)
Theorem test_stops_at_first_bad_endpoint (client : http_client)
    (endpoints requested : list string) (i : nat) (url : string) :
  endpoints !! i = Some url ->
  (forall j u, (j < i)%nat -> endpoints !! j = Some u ->
               greets (client (requested ++ take j endpoints)%list u)) ->
  ~ greets (client (requested ++ take i endpoints)%list url) ->
  exists e,
    TestAgent.backend_serving_test client (WithEndpoints endpoints) requested
    = (Raise e, (requested ++ take (S i) endpoints)%list).
Proof.
  intros Hi Hbefore Hbad. unfold TestAgent.backend_serving_test.
  cbn [TestAgent.endpoints_of].
  rewrite (bind_ok _ _ _ _ _ (eq_refl : ret endpoints requested = (Ok _, _))).
  now apply for_each_endpoints_stop with (url := url).
Qed.

Lemma test_stops_at_first_bad_endpoint_witness :
  exists e,
    TestAgent.backend_serving_test one_good_endpoint
      (WithEndpoints ["/health"; "/users"; "/health"]) []
    = (Raise e, ["/health"; "/users"]).
Proof.
  apply (test_stops_at_first_bad_endpoint one_good_endpoint
           ["/health"; "/users"; "/health"] [] 1 "/users").
  - reflexivity.
  - intros j u Hj Hu. destruct j as [|j]; [|lia]. injection Hu as <-.
    eexists. split; reflexivity.
  - intros (b & H & _). discriminate H.
Defined.
